(** * kopf.reactor.registries: handler registries and the matching engine

    A shallow embedding of [kopf/reactor/registries.py] and the properties
    of handler selection: activity handlers with their fallbacks, resource
    handlers with field, label, annotation and callback filters, the
    deduplication of handler functions, the per-resource operator registry
    and the generation of handler ids. *)

From Stdlib Require Import String.
From stdpp Require Import base option list gmap sets strings pretty.

Set Warnings "-clear-no-such-hyp".

(** ** Exceptions and results *)

(** The exceptions the module can see: the [ValueError] it raises itself;
    the [TypeError] with which the constructor of a handler refuses its
    arguments (its text is written outside this module); the
    [RuntimeError] by which Python replaces a [StopIteration] that leaves
    the body of a generator, with the replaced exception as its cause; and
    whatever a user callback raises: an exception of a class given by the
    names of the classes it is an instance of, its own class first. *)
Inductive exn : Type :=
| ValueError (msg : string)
| TypeError
| RuntimeError (msg : string) (cause : exn)
| UserError (mro : list string) (msg : string).

(** [isinstance(e, StopIteration)]. *)
Definition is_StopIteration (e : exn) : bool :=
  match e with
  | UserError mro _ => bool_decide ("StopIteration" ∈ mro)
  | _ => false
  end.

(** An exception on its way out of the body of a generator. *)
Definition generator_raise (e : exn) : exn :=
  if is_StopIteration e
  then RuntimeError "generator raised StopIteration" e
  else e.

(** The outcome of a call: a returned value or a raised exception. *)
Inductive result (A : Type) : Type :=
| Ok (a : A)
| Raise (e : exn).
Arguments Ok {A} a.
Arguments Raise {A} e.

#[export] Instance result_ret : MRet result := λ A a, Ok a.
#[export] Instance result_fmap : FMap result := λ A B f r,
  match r with
  | Ok a => Ok (f a)
  | Raise e => Raise e
  end.
#[export] Instance result_bind : MBind result := λ A B k r,
  match r with
  | Ok a => k a
  | Raise e => Raise e
  end.

(** ** Callables *)

(** A Python object offered as a handler function, as far as
    [get_callable_id] and [id()] observe it.  The constructors follow the
    order of the tests of [get_callable_id]: [None]; a [functools.partial];
    any other object with a [__wrapped__] attribute; a [FunctionType]; a
    [MethodType]; anything else.  [addr] is the identity of the object. *)
Inductive callable : Type :=
| PyNone
| Partial (addr : positive) (func : callable)
| Wrapper (addr : positive) (wrapped : callable)
| Function (addr : positive) (name qualname co_filename : string)
           (co_firstlineno : N)
| Method (addr : positive) (qualname name : option string) (repr : string)
| Opaque (addr : positive) (repr : string).

(** Python's [id(c)]: [None] is a singleton, distinct from every object. *)
Definition id_ (c : callable) : N :=
  match c with
  | PyNone => 0%N
  | Partial a _ | Wrapper a _ | Function a _ _ _ _ | Method a _ _ _
  | Opaque a _ => Npos a
  end.

(** Truth value of an optional string: [None] and [''] are false. *)
Definition str_truthy (s : option string) : bool :=
  match s with
  | None | Some "" => false
  | Some _ => true
  end.

(** ** Handler ids *)

Fixpoint get_callable_id (c : callable) : result string :=
  match c with
  | PyNone => Raise (ValueError "Cannot build a persistent id of None.")
  | Partial _ func => get_callable_id func
  | Wrapper _ wrapped => get_callable_id wrapped
  | Function _ name qualname path line =>
      if bool_decide (name = "<lambda>")
      then Ok ("lambda:" +:+ path +:+ ":" +:+ pretty line)
      else Ok qualname
  | Method _ qualname name repr =>
      Ok (default (default repr name) qualname)
  | Opaque _ repr => Raise (ValueError ("Cannot get id of " +:+ repr +:+ "."))
  end.

Definition generate_id (fn : callable) (id : option string)
    (prefix suffix : option string) : result string :=
  real_id ← match id with
            | Some i => Ok i
            | None => get_callable_id fn
            end;
  let real_id := if negb (str_truthy suffix) then real_id
                 else real_id +:+ "/" +:+ default "" suffix in
  let real_id := if negb (str_truthy prefix) then real_id
                 else default "" prefix +:+ "/" +:+ real_id in
  Ok real_id.

(** ** Handlers *)

(** Modelled from the spec: [causation.Activity] and [causation.Reason]
    are enumerations declared outside this module; the registries only
    compare their members for equality, so a member is its tag. *)
Definition Activity : Type := string.
Definition Reason : Type := string.

(** Modelled from the spec: [errors.ErrorsMode], the error policy carried
    by a handler; the registries store it and never look at it. *)
Inductive ErrorsMode : Type := IGNORED | RAISED | TEMPORARY | PERMANENT.

(** [dicts.FieldPath]: a tuple of keys. *)
Definition FieldPath : Type := list string.

(** A resource kind: [resources.Resource(group, version, plural)]. *)
Definition Resource : Type := string * string * string.

(** Modelled from the spec: the handler classes of [kopf.reactor.handlers]
    are declared outside this module; their fields are those that
    [register] passes to their constructors.  First the settings every
    handler carries for the invocation engine, as they are given to the
    constructor and as they are read from the handler, with the durations
    kept as written by the caller; [cooldown] is the deprecated name of
    [backoff]. *)
Record Settings : Type := mkSettings {
  errors : option ErrorsMode;
  timeout : option string;
  retries : option Z;
  backoff : option string;
  cooldown : option string;
}.

(** Modelled from the spec: the constructor of a handler, for the settings.
    [cooldown] is the deprecated name of [backoff]: a handler constructed
    with a cooldown has it as its backoff, under both names, and the
    constructor refuses a backoff together with a cooldown. *)
Definition handler_settings (given : Settings) : result Settings :=
  match backoff given, cooldown given with
  | Some _, Some _ => Raise TypeError
  | None, Some c | Some c, None =>
      Ok (mkSettings (errors given) (timeout given) (retries given)
            (Some c) (Some c))
  | None, None => Ok given
  end.

Record ActivityHandler : Type := mkActivityHandler {
  a_id : string;
  a_fn : callable;
  a_settings : Settings;
  activity : option Activity;
  _fallback : bool;
}.

(** Modelled from the spec: a resource body ([bodies.Body]), as far as the
    module reads it: [body.get('metadata', {}).get('labels', {})] and the
    same for the annotations. *)
Record Metadata : Type := mkMetadata {
  md_labels : option (gmap string string);
  md_annotations : option (gmap string string);
}.

Record Body : Type := mkBody {
  metadata : option Metadata;
}.

(** Modelled from the spec: one item of a diff,
    [(operation, field, old, new)]. *)
Inductive DiffOp : Type := DiffAdd | DiffChange | DiffRemove.

Record DiffItem : Type := mkDiffItem {
  d_op : DiffOp;
  d_field : FieldPath;
  d_old : option string;
  d_new : option string;
}.

(** Modelled from the spec: the causes of [kopf.reactor.causation], with
    the attributes that the module reads. *)
Record ResourceWatchingCause : Type := mkWatchingCause {
  w_resource : Resource;
  w_body : Body;
}.

Record ResourceChangingCause : Type := mkChangingCause {
  c_resource : Resource;
  c_body : Body;
  c_reason : Reason;
  c_diff : option (list DiffItem);
  c_initial : bool;
  c_deleted : bool;
}.

(** [causation.ResourceCause]: the base class of both. *)
Inductive ResourceCause : Type :=
| Watching (cause : ResourceWatchingCause)
| Changing (cause : ResourceChangingCause).

Definition cause_resource (cause : ResourceCause) : Resource :=
  match cause with
  | Watching c => w_resource c
  | Changing c => c_resource c
  end.

Definition cause_body (cause : ResourceCause) : Body :=
  match cause with
  | Watching c => w_body c
  | Changing c => c_body c
  end.

(** A [when=] callback sees the cause (through the keyword arguments that
    [invocation.get_invoke_arguments] builds from it) and returns a truth
    value or raises. *)
Definition WhenHandlerFn : Type := ResourceCause → result bool.

Record ResourceHandler : Type := mkResourceHandler {
  r_id : string;
  r_fn : callable;
  r_settings : Settings;
  reason : option Reason;
  field : option FieldPath;
  initial : option bool;
  deleted : option bool;
  requires_finalizer : bool;
  labels : option (gmap string (option string));
  annotations : option (gmap string (option string));
  when : option WhenHandlerFn;
}.

(** Truth value of an optional flag, an optional tuple, an optional dict. *)
Definition flag_truthy (b : option bool) : bool := default false b.

Definition tuple_truthy {A} (t : option (list A)) : bool :=
  match t with
  | None | Some [] => false
  | Some (_ :: _) => true
  end.

Definition dict_truthy {V} (d : option (gmap string V)) : bool :=
  match d with
  | None => false
  | Some m => negb (bool_decide (m = ∅))
  end.

(** What the registries need of a handler, whatever its class. *)
Class Handler (H : Type) : Type := {
  handler_id : H → string;
  handler_fn : H → callable;
}.

#[export] Instance ActivityHandler_Handler : Handler ActivityHandler :=
  {| handler_id := a_id; handler_fn := a_fn |}.
#[export] Instance ResourceHandler_Handler : Handler ResourceHandler :=
  {| handler_id := r_id; handler_fn := r_fn |}.

(** ** Deduplication *)

(** The loop of [_deduplicated], with the set [seen_ids] it updates. *)
Fixpoint _deduplicated_from `{Handler H} (seen_ids : gset N)
    (handlers : list H) : list H :=
  match handlers with
  | [] => []
  | handler :: rest =>
      if bool_decide (id_ (handler_fn handler) ∈ seen_ids)
      then _deduplicated_from seen_ids rest
      else handler ::
           _deduplicated_from ({[id_ (handler_fn handler)]} ∪ seen_ids) rest
  end.

Definition _deduplicated `{Handler H} (handlers : list H) : list H :=
  _deduplicated_from ∅ handlers.

(** ** The matching engine *)

(** [field[:len(handler.field)] == handler.field] for some changed field. *)
Definition _matches_field (handler : ResourceHandler)
    (changed_fields : gset FieldPath) (ignore_fields : bool) : bool :=
  let hfield := default [] (field handler) in
  ignore_fields ||
  negb (tuple_truthy (field handler)) ||
  existsb (λ f, bool_decide (take (length hfield) f = hfield))
          (elements changed_fields).

(** One turn of the loop of [_matches_metadata]: [false] where it returns
    [False], [true] where it continues. *)
Definition _metadata_item_ok (content : gmap string string)
    (item : string * option string) : bool :=
  let '(key, value) := item in
  match content !! key with
  | None => false
  | Some found =>
      match value with
      | Some v => if bool_decide (v ≠ found) then false else true
      | None => true
      end
  end.

Definition _matches_metadata (pattern : gmap string (option string))
    (content : gmap string string) : bool :=
  forallb (_metadata_item_ok content) (map_to_list pattern).

Definition body_metadata (body : Body) : Metadata :=
  default (mkMetadata None None) (metadata body).

Definition _matches_labels (handler : ResourceHandler) (body : Body) : bool :=
  negb (dict_truthy (labels handler)) ||
  _matches_metadata (default ∅ (labels handler))
                    (default ∅ (md_labels (body_metadata body))).

Definition _matches_annotations (handler : ResourceHandler) (body : Body)
    : bool :=
  negb (dict_truthy (annotations handler)) ||
  _matches_metadata (default ∅ (annotations handler))
                    (default ∅ (md_annotations (body_metadata body))).

Definition _matches_filter_callback (handler : ResourceHandler)
    (cause : ResourceCause) : result bool :=
  match when handler with
  | None => Ok true
  | Some callback => callback cause
  end.

(** [changed_fields or {}]. *)
Definition or_empty (changed_fields : gset FieldPath) : gset FieldPath :=
  if bool_decide (changed_fields = ∅) then ∅ else changed_fields.

(** [match]: the four checks are all evaluated, in order, into a list
    before [all] looks at it; only the callback can raise. *)
Definition match_ (handler : ResourceHandler) (cause : ResourceCause)
    (changed_fields : gset FieldPath) (ignore_fields : bool) : result bool :=
  let by_field :=
    _matches_field handler (or_empty changed_fields) ignore_fields in
  let by_labels := _matches_labels handler (cause_body cause) in
  let by_annotations := _matches_annotations handler (cause_body cause) in
  by_callback ← _matches_filter_callback handler cause;
  Ok (forallb id [by_field; by_labels; by_annotations; by_callback]).

(** ** Simple registries *)

(** A generator of the shape [for handler in handlers: if test(handler):
    yield handler], consumed to its end: the handlers yielded, or the
    exception with which the generator ended when a test raised: the
    exception of the test, or a [RuntimeError] in the place of a
    [StopIteration]. *)
Fixpoint yield_where {H} (test : H → result bool) (handlers : list H)
    : result (list H) :=
  match handlers with
  | [] => Ok []
  | handler :: rest =>
      match test handler with
      | Raise e => Raise (generator_raise e)
      | Ok b =>
          more ← yield_where test rest;
          Ok (if b : bool then handler :: more else more)
      end
  end.

(** A loop of the shape [for handler in handlers: if test(handler): return
    True], followed by [return False]. *)
Fixpoint return_true_at_first {H} (test : H → result bool)
    (handlers : list H) : result bool :=
  match handlers with
  | [] => Ok false
  | handler :: rest =>
      b ← test handler;
      if b : bool then Ok true else return_true_at_first test rest
  end.

(** A [GenericRegistry] is its list [_handlers]; [append] adds at the end. *)
Definition append {H} (self : list H) (handler : H) : list H :=
  self ++ [handler].

Module ActivityRegistry.

(** [register]: the registry after the call, unless it raised. *)
Definition register (self : list ActivityHandler) (fn : callable)
    (id : option string) (settings : Settings)
    (activity : option Activity) (_fallback : bool)
    : result (list ActivityHandler) :=
  real_id ← generate_id fn id None None;
  settings ← handler_settings settings;
  Ok (append self (mkActivityHandler real_id fn settings activity _fallback)).

(** The test of the first loop: Python reads [a or b and not c] as
    [a or (b and not c)]. *)
Definition regular_test (act : Activity) (handler : ActivityHandler)
    : bool :=
  bool_decide (activity handler = None) ||
  bool_decide (activity handler = Some act) && negb (_fallback handler).

(** The test of the second loop. *)
Definition fallback_test (act : Activity) (handler : ActivityHandler)
    : bool :=
  bool_decide (activity handler = None) ||
  bool_decide (activity handler = Some act) && _fallback handler.

(** The first loop: the handlers yielded and the flag [found]. *)
Fixpoint regular_loop (act : Activity) (handlers : list ActivityHandler)
    (found : bool) : list ActivityHandler * bool :=
  match handlers with
  | [] => ([], found)
  | handler :: rest =>
      if regular_test act handler
      then let '(more, found') := regular_loop act rest true in
           (handler :: more, found')
      else regular_loop act rest found
  end.

Fixpoint fallback_loop (act : Activity) (handlers : list ActivityHandler)
    : list ActivityHandler :=
  match handlers with
  | [] => []
  | handler :: rest =>
      if fallback_test act handler
      then handler :: fallback_loop act rest
      else fallback_loop act rest
  end.

Definition iter_handlers (self : list ActivityHandler) (act : Activity)
    : list ActivityHandler :=
  let '(regular, found) := regular_loop act self false in
  if negb found then regular ++ fallback_loop act self else regular.

Definition get_handlers (self : list ActivityHandler) (act : Activity)
    : list ActivityHandler :=
  _deduplicated (iter_handlers self act).

End ActivityRegistry.

Module ResourceRegistry.

Section Register.
(** Two helpers declared outside this module: the enumeration lookup
    [causation.Reason(event)], which raises for an unknown name, and
    [dicts.parse_field], which splits a field specification into its
    path (the empty tuple when there is none). *)
Context {FieldSpec : Type}.
Variable Reason_of_event : string → result Reason.
Variable parse_field : option FieldSpec → FieldPath.

Definition register (self : list ResourceHandler) (fn : callable)
    (id : option string) (reason : option Reason) (event : option string)
    (field : option FieldSpec) (settings : Settings)
    (initial deleted : option bool) (requires_finalizer : bool)
    (labels annotations : option (gmap string (option string)))
    (when : option WhenHandlerFn) : result (list ResourceHandler) :=
  reason ← match reason, event with
           | None, Some name => Some <$> Reason_of_event name
           | _, _ => Ok reason
           end;
  let real_field :=
    match parse_field field with
    | [] => None
    | path => Some path
    end in
  real_id ← generate_id fn id None
              (Some (String.concat "." (default [] real_field)));
  settings ← handler_settings settings;
  Ok (append self
        (mkResourceHandler real_id fn settings reason real_field
           initial deleted requires_finalizer labels annotations when)).
End Register.

Definition iter_extra_fields (self : list ResourceHandler)
    : list FieldPath :=
  omap (λ handler, if tuple_truthy (field handler) then field handler
                   else None) self.

Definition get_extra_fields (self : list ResourceHandler)
    : gset FieldPath :=
  list_to_set (iter_extra_fields self).

Definition requires_finalizer (self : list ResourceHandler)
    (cause : ResourceCause) : result bool :=
  return_true_at_first
    (λ handler, if requires_finalizer handler
                then match_ handler cause ∅ false
                else Ok false)
    self.

End ResourceRegistry.

Module ResourceWatchingRegistry.

Definition iter_handlers (self : list ResourceHandler)
    (cause : ResourceWatchingCause) : result (list ResourceHandler) :=
  yield_where (λ handler, match_ handler (Watching cause) ∅ true) self.

Definition get_handlers (self : list ResourceHandler)
    (cause : ResourceWatchingCause) : result (list ResourceHandler) :=
  _deduplicated <$> iter_handlers self cause.

End ResourceWatchingRegistry.

Module ResourceChangingRegistry.

(** [frozenset(field for _, field, _, _ in cause.diff or [])]. *)
Definition changed_fields (cause : ResourceChangingCause)
    : gset FieldPath :=
  list_to_set (d_field <$> default [] (c_diff cause)).

(** The body of the loop of [iter_handlers]: is the handler yielded? *)
Definition selects (cause : ResourceChangingCause)
    (handler : ResourceHandler) : result bool :=
  if bool_decide (reason handler = None) ||
     bool_decide (reason handler = Some (c_reason cause))
  then
    if flag_truthy (initial handler) && negb (c_initial cause)
    then Ok false
    else if flag_truthy (initial handler) && c_deleted cause &&
            negb (flag_truthy (deleted handler))
    then Ok false
    else match_ handler (Changing cause) (changed_fields cause) false
  else Ok false.

Definition iter_handlers (self : list ResourceHandler)
    (cause : ResourceChangingCause) : result (list ResourceHandler) :=
  yield_where (selects cause) self.

Definition get_handlers (self : list ResourceHandler)
    (cause : ResourceChangingCause) : result (list ResourceHandler) :=
  _deduplicated <$> iter_handlers self cause.

End ResourceChangingRegistry.

(** ** The operator registry *)

Record OperatorRegistry : Type := mkOperatorRegistry {
  _activity_handlers : list ActivityHandler;
  _resource_watching_handlers : gmap Resource (list ResourceHandler);
  _resource_changing_handlers : gmap Resource (list ResourceHandler);
}.

(** The two [defaultdict]s of the registry. *)
Inductive family : Type := WatchingFamily | ChangingFamily.

Definition family_map (f : family) (self : OperatorRegistry)
    : gmap Resource (list ResourceHandler) :=
  match f with
  | WatchingFamily => _resource_watching_handlers self
  | ChangingFamily => _resource_changing_handlers self
  end.

Definition set_family_map (f : family)
    (m : gmap Resource (list ResourceHandler)) (self : OperatorRegistry)
    : OperatorRegistry :=
  match f with
  | WatchingFamily =>
      mkOperatorRegistry (_activity_handlers self) m
                         (_resource_changing_handlers self)
  | ChangingFamily =>
      mkOperatorRegistry (_activity_handlers self)
                         (_resource_watching_handlers self) m
  end.

(** A method of the operator registry: it reads and may update the
    registry, and returns or raises. *)
Definition Op (A : Type) : Type :=
  OperatorRegistry → result A * OperatorRegistry.

Module Op.
Definition ret {A} (a : A) : Op A := λ self, (Ok a, self).

Definition bind {A B} (m : Op A) (k : A → Op B) : Op B := λ self,
  match m self with
  | (Ok a, self') => k a self'
  | (Raise e, self') => (Raise e, self')
  end.

(** A computation of a simple registry that touches nothing else. *)
Definition lift {A} (r : result A) : Op A := λ self, (r, self).

(** [key in self._map]: a [defaultdict] is not changed by the test. *)
Definition contains (f : family) (key : Resource) : Op bool := λ self,
  (Ok (bool_decide (is_Some (family_map f self !! key))), self).

(** [self._map[key]]: a [defaultdict] stores a new, empty registry under
    a missing key before it returns it. *)
Definition getitem (f : family) (key : Resource)
    : Op (list ResourceHandler) := λ self,
  match family_map f self !! key with
  | Some registry => (Ok registry, self)
  | None => (Ok [], set_family_map f (<[key := []]> (family_map f self)) self)
  end.

(** The registry under [key] after one of its methods has changed it in
    place. *)
Definition update (f : family) (key : Resource)
    (registry : list ResourceHandler) : Op unit := λ self,
  (Ok (), set_family_map f (<[key := registry]> (family_map f self)) self).
End Op.

#[export] Instance Op_ret : MRet Op := @Op.ret.
#[export] Instance Op_bind : MBind Op := λ A B k m, Op.bind m k.

Module OperatorRegistry.
(** [OperatorRegistry()]. *)
Definition init : OperatorRegistry := mkOperatorRegistry [] ∅ ∅.

Definition resources (self : OperatorRegistry) : gset Resource :=
  dom (_resource_watching_handlers self) ∪
  dom (_resource_changing_handlers self).

Definition register_activity_handler (fn : callable) (id : option string)
    (settings : Settings) (activity : option Activity) (_fallback : bool)
    : Op unit := λ self,
  match ActivityRegistry.register (_activity_handlers self) fn id settings
          activity _fallback with
  | Ok registry =>
      (Ok (), mkOperatorRegistry registry
                (_resource_watching_handlers self)
                (_resource_changing_handlers self))
  | Raise e => (Raise e, self)
  end.

Section Register.
Context {FieldSpec : Type}.
Variable Reason_of_event : string → result Reason.
Variable parse_field : option FieldSpec → FieldPath.


Definition register_resource_changing_handler
    (group version plural : string) (fn : callable) (id : option string)
    (reason : option Reason) (event : option string)
    (field : option FieldSpec) (settings : Settings)
    (initial deleted : option bool) (requires_finalizer : bool)
    (labels annotations : option (gmap string (option string)))
    (when : option WhenHandlerFn) : Op unit :=
  let resource : Resource := (group, version, plural) in
  registry ← Op.getitem ChangingFamily resource;
  registry ← Op.lift
    (ResourceRegistry.register Reason_of_event parse_field registry
       fn id reason event field settings initial deleted
       requires_finalizer labels annotations when);
  Op.update ChangingFamily resource registry.
End Register.

Definition has_activity_handlers : Op bool := λ self,
  (Ok (negb (bool_decide (_activity_handlers self = []))), self).

(** [resource in self._map and bool(self._map[resource])]. *)
Definition has_handlers (f : family) (resource : Resource) : Op bool :=
  present ← Op.contains f resource;
  if present : bool
  then registry ← Op.getitem f resource;
       Op.ret (negb (bool_decide (registry = [])))
  else Op.ret false.

Definition has_resource_watching_handlers (resource : Resource)
    : Op bool :=
  has_handlers WatchingFamily resource.

Definition has_resource_changing_handlers (resource : Resource)
    : Op bool :=
  has_handlers ChangingFamily resource.

Definition iter_activity_handlers (activity : Activity)
    : Op (list ActivityHandler) := λ self,
  (Ok (ActivityRegistry.iter_handlers (_activity_handlers self) activity),
   self).

Definition iter_resource_watching_handlers (cause : ResourceWatchingCause)
    : Op (list ResourceHandler) :=
  present ← Op.contains WatchingFamily (w_resource cause);
  if present : bool
  then registry ← Op.getitem WatchingFamily (w_resource cause);
       Op.lift (ResourceWatchingRegistry.iter_handlers registry cause)
  else Op.ret [].

Definition iter_resource_changing_handlers (cause : ResourceChangingCause)
    : Op (list ResourceHandler) :=
  present ← Op.contains ChangingFamily (c_resource cause);
  if present : bool
  then registry ← Op.getitem ChangingFamily (c_resource cause);
       Op.lift (ResourceChangingRegistry.iter_handlers registry cause)
  else Op.ret [].

Definition get_activity_handlers (activity : Activity)
    : Op (list ActivityHandler) :=
  handlers ← iter_activity_handlers activity;
  Op.ret (_deduplicated handlers).

Definition get_resource_watching_handlers (cause : ResourceWatchingCause)
    : Op (list ResourceHandler) :=
  handlers ← iter_resource_watching_handlers cause;
  Op.ret (_deduplicated handlers).

Definition get_resource_changing_handlers (cause : ResourceChangingCause)
    : Op (list ResourceHandler) :=
  handlers ← iter_resource_changing_handlers cause;
  Op.ret (_deduplicated handlers).

Definition iter_extra_fields (resource : Resource) : Op (list FieldPath) :=
  present ← Op.contains ChangingFamily resource;
  if present : bool
  then registry ← Op.getitem ChangingFamily resource;
       Op.ret (ResourceRegistry.iter_extra_fields registry)
  else Op.ret [].

Definition get_extra_fields (resource : Resource) : Op (gset FieldPath) :=
  fields ← iter_extra_fields resource;
  Op.ret (list_to_set fields).

(** [resource in self._map and self._map[resource].requires_finalizer(..)] *)
Definition requires_finalizer (resource : Resource) (cause : ResourceCause)
    : Op bool :=
  present ← Op.contains ChangingFamily resource;
  if present : bool
  then registry ← Op.getitem ChangingFamily resource;
       Op.lift (ResourceRegistry.requires_finalizer registry cause)
  else Op.ret false.

End OperatorRegistry.

Module SmartOperatorRegistry.

Section Init.
(** Declared outside this module: the member
    [causation.Activity.AUTHENTICATION], the two login functions of
    [kopf.utilities.piggybacking], and whether [import pykube] and
    [import kubernetes] succeed where the operator runs. *)
Variable AUTHENTICATION : Activity.
Variables login_via_pykube login_via_client : callable.
Variables has_pykube has_kubernetes : bool.

(** The body of [__init__] after [super().__init__()]. *)
Definition register_logins : Op unit :=
  _ ← (if has_pykube
       then OperatorRegistry.register_activity_handler login_via_pykube
              (Some "login_via_pykube")
              (mkSettings (Some IGNORED) None None None None)
              (Some AUTHENTICATION) true
       else Op.ret ());
  if has_kubernetes
  then OperatorRegistry.register_activity_handler login_via_client
         (Some "login_via_client")
         (mkSettings (Some IGNORED) None None None None)
         (Some AUTHENTICATION) true
  else Op.ret ().

(** [SmartOperatorRegistry()]. *)
Definition init : result unit * OperatorRegistry :=
  register_logins OperatorRegistry.init.
End Init.

End SmartOperatorRegistry.

(** * The vocabulary of the properties *)

(** A callable has a derivable identity when, under its layers of partial
    application and wrapping, it is a function or a method. *)
Fixpoint has_identity (c : callable) : bool :=
  match c with
  | PyNone | Opaque _ _ => false
  | Partial _ inner | Wrapper _ inner => has_identity inner
  | Function _ _ _ _ _ | Method _ _ _ _ => true
  end.

(** The identity under which a handler is deduplicated: that of its
    function, [id(handler.fn)]. *)
Definition fn_identity {T : Type} {handler_T : Handler T} (handler : T) : N :=
  id_ (handler_fn handler).

(** What a selector asks of the labels, or annotations, of a body: every
    key of the selector is there, with the value of the selector when the
    selector gives one. *)
Definition selector_holds (selector : gmap string (option string))
    (content : gmap string string) : Prop :=
  ∀ key value, selector !! key = Some value →
    ∃ found, content !! key = Some found ∧ ∀ v, value = Some v → found = v.

(** A candidate for an activity: a handler of no activity in particular,
    or of that activity. *)
Definition candidate (act : Activity) (handler : ActivityHandler) : bool :=
  bool_decide (activity handler = None) ||
  bool_decide (activity handler = Some act).

(** The rules that [iter_handlers] leaves to the matching engine once the
    reason of the handler fits and no rule on initial handlers skips it. *)
Definition remaining_rules (cause : ResourceChangingCause)
    (handler : ResourceHandler) : Prop :=
  (reason handler = None ∨ reason handler = Some (c_reason cause))
  ∧ match_ handler (Changing cause)
      (ResourceChangingRegistry.changed_fields cause) false = Ok true.

(** The test of the loop of [requires_finalizer]. *)
Definition finalizer_test (cause : ResourceCause) (handler : ResourceHandler)
    : result bool :=
  if requires_finalizer handler then match_ handler cause ∅ false
  else Ok false.

(** No handler of the family is registered for the resource: the resource
    is not a key of the map of the family, or its registry is empty (as
    after a registration that raised). *)
Definition no_handlers (f : family) (resource : Resource)
    (self : OperatorRegistry) : Prop :=
  family_map f self !! resource = None
  ∨ family_map f self !! resource = Some [].

(** The callable under the layers of partial application and wrapping. *)
Fixpoint innermost (c : callable) : callable :=
  match c with
  | Partial _ inner | Wrapper _ inner => innermost inner
  | _ => c
  end.

(** A handler whose reason fits the cause and that no rule on initial
    handlers skips: [iter_handlers] hands it to the matching engine. *)
Definition reached (cause : ResourceChangingCause) (handler : ResourceHandler)
    : Prop :=
  (reason handler = None ∨ reason handler = Some (c_reason cause))
  ∧ (flag_truthy (initial handler) = true →
       c_initial cause = true
       ∧ (c_deleted cause = true → flag_truthy (deleted handler) = true)).

(** The handlers of a family registered for a resource, none when the
    resource is not a key of the map. *)
Definition registry_of (f : family) (resource : Resource)
    (self : OperatorRegistry) : list ResourceHandler :=
  default [] (family_map f self !! resource).

(** * Properties *)

(** ** Handler ids *)

Lemma get_callable_id_raises (c : callable) :
  has_identity c = false → ∃ msg, get_callable_id c = Raise (ValueError msg).
Proof.
  induction c as [|a f IH|a w IH|a n q p l|a q n r|a r]; simpl; intros Hc;
    try discriminate; eauto.
Qed.

Lemma get_callable_id_returns (c : callable) :
  has_identity c = true → ∃ name, get_callable_id c = Ok name.
Proof.
  induction c as [|a f IH|a w IH|a n q p l|a q n r|a r]; simpl; intros Hc;
    try discriminate; eauto.
  case_bool_decide; eauto.
Qed.


(** C10: with an explicit id, [generate_id] returns that id, followed by
    [/suffix] when a non-empty suffix is given and preceded by [prefix/]
    when a non-empty prefix is given; it never raises and its result does
    not depend on the callback, which may be [None] or any other object. *)
Theorem generate_id_explicit (fn : callable) (id : string)
    (prefix suffix : option string) :
  generate_id fn (Some id) prefix suffix =
    Ok (let suffixed := match suffix with
                        | Some (String _ _ as s) => id +:+ "/" +:+ s
                        | _ => id
                        end in
        match prefix with
        | Some (String _ _ as p) => p +:+ "/" +:+ suffixed
        | _ => suffixed
        end)
  ∧ ∀ fn' : callable,
      generate_id fn' (Some id) prefix suffix =
      generate_id fn (Some id) prefix suffix.
Proof.
  split; [|done].
  unfold generate_id; simpl.
  by destruct suffix as [[|? ?]|], prefix as [[|? ?]|].
Qed.




(** ** Deduplication *)

Section Deduplication.
Context {T : Type} {handler_T : Handler T}.

Lemma deduplicated_from_app (seen : gset N) (pre post : list T) :
  _deduplicated_from seen (pre ++ post) =
  _deduplicated_from seen pre ++
  _deduplicated_from (list_to_set (fn_identity <$> pre) ∪ seen) post.
Proof.
  revert seen. induction pre as [|h pre IH]; intros seen; simpl.
  - f_equal. set_solver.
  - case_bool_decide as Hseen.
    + rewrite IH. do 2 f_equal. unfold fn_identity at 2. set_solver.
    + simpl. rewrite IH. do 3 f_equal. unfold fn_identity at 2. set_solver.
Qed.

Lemma deduplicated_from_sublist (seen : gset N) (handlers : list T) :
  sublist (_deduplicated_from seen handlers) handlers.
Proof.
  revert seen. induction handlers as [|h rest IH]; intros seen; simpl.
  - constructor.
  - case_bool_decide; [apply sublist_cons | apply sublist_skip]; apply IH.
Qed.

Lemma deduplicated_from_unseen (seen : gset N) (handlers : list T) (h : T) :
  h ∈ _deduplicated_from seen handlers → fn_identity h ∉ seen.
Proof.
  revert seen. induction handlers as [|x rest IH]; intros seen; simpl.
  - by intros ?%elem_of_nil.
  - case_bool_decide as Hseen.
    + apply IH.
    + intros [->|Hin]%elem_of_cons; [done|].
      apply IH in Hin. set_solver.
Qed.

Lemma deduplicated_from_NoDup (seen : gset N) (handlers : list T) :
  NoDup (fn_identity <$> _deduplicated_from seen handlers).
Proof.
  revert seen. induction handlers as [|x rest IH]; intros seen; simpl.
  - constructor.
  - case_bool_decide as Hseen; [apply IH|].
    rewrite fmap_cons. constructor; [|apply IH].
    intros (h & Heq & Hin)%list_elem_of_fmap.
    apply deduplicated_from_unseen in Hin.
    unfold fn_identity in *. set_solver.
Qed.

Lemma deduplicated_snoc (pre : list T) (h : T) :
  _deduplicated (pre ++ [h]) =
  _deduplicated pre ++
  (if decide (fn_identity h ∈ (fn_identity <$> pre)) then [] else [h]).
Proof.
  unfold _deduplicated. rewrite deduplicated_from_app. f_equal. simpl.
  fold (fn_identity h).
  case_bool_decide as Hseen; case_decide as Hpre; try done; set_solver.
Qed.

Lemma deduplicated_first (pre post : list T) (h : T) :
  fn_identity h ∉ (fn_identity <$> pre) →
  ∃ rest,
    _deduplicated (pre ++ h :: post) = _deduplicated pre ++ h :: rest
    ∧ fn_identity h ∉ (fn_identity <$> rest).
Proof.
  intros Hfirst. unfold _deduplicated.
  rewrite deduplicated_from_app. simpl. fold (fn_identity h).
  rewrite bool_decide_eq_false_2 by set_solver.
  eexists; split; [done|].
  intros (h' & Heq & Hin)%list_elem_of_fmap.
  apply deduplicated_from_unseen in Hin. set_solver.
Qed.
End Deduplication.

(** C5: [_deduplicated] keeps of its input, in order, the first handler of
    each function identity and drops the later ones: a handler is kept
    exactly when no handler before it has the same function.  The handler
    ids play no part: of two handlers with the same function the first one
    is yielded, at its place, and no later one with that function. *)
Theorem deduplicated_keeps_first_occurrences {T : Type} {handler_T : Handler T} :
  _deduplicated (@nil T) = []
  ∧ (∀ (pre : list T) (h : T),
       _deduplicated (pre ++ [h]) =
       _deduplicated pre ++
       (if decide (fn_identity h ∈ (fn_identity <$> pre)) then [] else [h]))
  ∧ (∀ handlers : list T,
       sublist (_deduplicated handlers) handlers
       ∧ NoDup (fn_identity <$> _deduplicated handlers))
  ∧ (∀ (pre mid post : list T) (h1 h2 : T),
       fn_identity h1 = fn_identity h2 →
       fn_identity h1 ∉ (fn_identity <$> pre) →
       ∃ rest,
         _deduplicated (pre ++ h1 :: mid ++ h2 :: post)
         = _deduplicated pre ++ h1 :: rest
         ∧ (fn_identity h1 ∉ (fn_identity <$> rest))
         ∧ fn_identity h2 ∉ (fn_identity <$> rest)).
Proof.
  split_and!.
  - done.
  - apply deduplicated_snoc.
  - intros handlers. split.
    + apply deduplicated_from_sublist.
    + apply deduplicated_from_NoDup.
  - intros pre mid post h1 h2 Hsame Hfirst.
    destruct (deduplicated_first pre (mid ++ h2 :: post) h1 Hfirst)
      as (rest & Heq & Hrest).
    exists rest. split_and!; [done|done|by rewrite <-Hsame].
Qed.

(** Two registrations of one function under different ids. *)
Lemma deduplicated_keeps_first_occurrences_witness :
  let fn := Function 5 "fn" "fn" "handlers.py" 12 in
  let none := mkSettings None None None None None in
  let on_create := mkActivityHandler "fn/create" fn none None false in
  let on_resume := mkActivityHandler "fn/resume" fn none None false in
  ∃ rest,
    _deduplicated ([] ++ on_create :: [] ++ on_resume :: [])
    = _deduplicated [] ++ on_create :: rest
    ∧ (fn_identity on_create ∉ (fn_identity <$> rest))
    ∧ fn_identity on_resume ∉ (fn_identity <$> rest).
Proof.
  intros fn none on_create on_resume.
  destruct (@deduplicated_keeps_first_occurrences ActivityHandler _)
    as (_ & _ & _ & Hsame).
  apply (Hsame [] [] [] on_create on_resume).
  - reflexivity.
  - simpl. apply not_elem_of_nil.
Defined.

(** ** Labels and annotations *)

Lemma metadata_item_ok_spec (content : gmap string string) (key : string)
    (value : option string) :
  _metadata_item_ok content (key, value) = true ↔
  ∃ found, content !! key = Some found ∧ ∀ v, value = Some v → found = v.
Proof.
  unfold _metadata_item_ok.
  destruct (content !! key) as [found|]; [|naive_solver].
  destruct value as [v|]; [|naive_solver].
  case_bool_decide; naive_solver.
Qed.

Lemma matches_metadata_spec (pattern : gmap string (option string))
    (content : gmap string string) :
  _matches_metadata pattern content = true ↔ selector_holds pattern content.
Proof.
  unfold _matches_metadata, selector_holds. rewrite forallb_forall. split.
  - intros Hall key value Hkey.
    apply metadata_item_ok_spec, Hall, list_elem_of_In.
    by apply elem_of_map_to_list.
  - intros Hall [key value] Hin%list_elem_of_In%elem_of_map_to_list.
    by apply metadata_item_ok_spec, Hall.
Qed.

Lemma dict_truthy_default {V} (d : option (gmap string V)) :
  dict_truthy d = false ↔ default ∅ d = ∅.
Proof.
  destruct d as [m|]; simpl; [|done].
  case_bool_decide; naive_solver.
Qed.

(** C6: the label rule passes exactly when the selector of the handler is
    empty, or every key of the selector is among the labels of the body
    and carries the value of the selector wherever the selector gives one
    (a selector value of [None] asks for the key only).  The annotation
    rule is the same, on the annotations of the body. *)
Theorem label_and_annotation_rules (handler : ResourceHandler) (body : Body) :
  (_matches_labels handler body = true ↔
     default ∅ (labels handler) = ∅ ∨
     selector_holds (default ∅ (labels handler))
                    (default ∅ (md_labels (body_metadata body))))
  ∧ (_matches_annotations handler body = true ↔
       default ∅ (annotations handler) = ∅ ∨
       selector_holds (default ∅ (annotations handler))
                      (default ∅ (md_annotations (body_metadata body)))).
Proof.
  unfold _matches_labels, _matches_annotations.
  split; rewrite orb_true_iff, negb_true_iff, dict_truthy_default,
    matches_metadata_spec; done.
Qed.

(** The selectors of the specification, on bodies with and without the
    label. *)
Lemma label_rule_examples :
  let on (selector : gmap string (option string)) :=
    mkResourceHandler "h" PyNone (mkSettings None None None None None)
      None None None None false (Some selector) None None in
  let body (content : gmap string string) :=
    mkBody (Some (mkMetadata (Some content) None)) in
  _matches_labels (on {["env" := Some "prod"]}) (body {["env" := "prod"]})
    = true
  ∧ _matches_labels (on {["env" := Some "prod"]})
      (body {["env" := "staging"]}) = false
  ∧ _matches_labels (on {["env" := Some "prod"]}) (mkBody None) = false
  ∧ _matches_labels (on {["env" := None]}) (body {["env" := "staging"]})
    = true.
Proof. by vm_compute. Qed.

(** ** The field rule *)

Lemma take_eq_prefix {A} (path f : list A) :
  take (length path) f = path ↔ path `prefix_of` f.
Proof.
  split.
  - intros Htake. exists (drop (length path) f).
    by rewrite <-Htake at 1; rewrite take_drop.
  - intros [k ->]. by rewrite take_app_length.
Qed.

Lemma or_empty_id (changed : gset FieldPath) : or_empty changed = changed.
Proof. unfold or_empty. by case_bool_decide. Qed.

Lemma matches_field_spec (handler : ResourceHandler)
    (changed : gset FieldPath) (ignore_fields : bool) :
  _matches_field handler changed ignore_fields = true ↔
    ignore_fields = true
    ∨ tuple_truthy (field handler) = false
    ∨ ∃ path f, field handler = Some path ∧ f ∈ changed
                ∧ path `prefix_of` f.
Proof.
  unfold _matches_field.
  rewrite !orb_true_iff, negb_true_iff, existsb_exists.
  split.
  - intros [[?|?]|(f & Hin & Hf)]; [by left|by right; left|].
    destruct (tuple_truthy (field handler)) eqn:Hfield; [|by right; left].
    right; right.
    destruct (field handler) as [path|] eqn:Hpath; [|done].
    exists path, f.
    split_and!; [done|by apply elem_of_elements, list_elem_of_In|].
    simpl in Hf. apply bool_decide_eq_true_1 in Hf.
    by apply take_eq_prefix.
  - intros [?|[?|(path & f & Hpath & Hin & Hpre)]]; [by left; left|
      by left; right|].
    right. exists f. split; [by apply list_elem_of_In, elem_of_elements|].
    rewrite Hpath. simpl. by apply bool_decide_eq_true_2, take_eq_prefix.
Qed.

(** C3: the changed fields of a cause are the field paths of the items of
    its diff; the field rule passes exactly when fields are ignored, or the
    handler has no field (none, or the empty path, which [register] never
    stores), or the field of the handler is a prefix of some changed path
    (that path itself or one below it); [match] applies it to the changed
    fields as they are.  A change of strict ancestors of the field of the
    handler only does not pass. *)
Theorem field_rule :
  (∀ cause f,
     f ∈ ResourceChangingRegistry.changed_fields cause ↔
     ∃ item, item ∈ default [] (c_diff cause) ∧ d_field item = f)
  ∧ (∀ handler changed ignore_fields,
       _matches_field handler changed ignore_fields = true ↔
         ignore_fields = true
         ∨ tuple_truthy (field handler) = false
         ∨ ∃ path f, field handler = Some path ∧ f ∈ changed
                     ∧ path `prefix_of` f)
  ∧ (∀ changed, or_empty changed = changed)
  ∧ (∀ handler path (changed : gset FieldPath),
       field handler = Some path → path ≠ [] →
       (∀ f, f ∈ changed → f `prefix_of` path ∧ f ≠ path) →
       _matches_field handler changed false = false).
Proof.
  split_and!.
  - intros cause f. unfold ResourceChangingRegistry.changed_fields.
    rewrite elem_of_list_to_set, list_elem_of_fmap. naive_solver.
  - apply matches_field_spec.
  - apply or_empty_id.
  - intros handler path changed Hpath Hne Hanc.
    apply not_true_is_false. rewrite matches_field_spec.
    intros [?|[Hno|(path' & f & Hpath' & Hin & Hpre)]]; [done|..].
    + rewrite Hpath in Hno. by destruct path.
    + rewrite Hpath in Hpath'. injection Hpath' as <-.
      destruct (Hanc f Hin) as [Hf Hfne].
      apply Hfne. by apply (anti_symm prefix).
Qed.

(** A handler on [spec.replicas] and a diff that replaces [spec] as a
    whole; a handler on [spec] and diffs below [spec] and below [status]. *)
Lemma field_rule_witness :
  let on path :=
    mkResourceHandler "h" PyNone (mkSettings None None None None None)
      None (Some path) None None false None None None in
  _matches_field (on ["spec"; "replicas"]) {[ ["spec"] ]} false = false
  ∧ _matches_field (on ["spec"]) {[ ["spec"; "replicas"] ]} false = true
  ∧ _matches_field (on ["spec"]) {[ ["status"; "phase"] ]} false = false.
Proof.
  intros on. split; [|by vm_compute].
  destruct field_rule as (_ & _ & _ & Hstrict).
  apply (Hstrict (on ["spec"; "replicas"]) ["spec"; "replicas"]).
  - reflexivity.
  - discriminate.
  - intros f ->%elem_of_singleton. split; [|discriminate].
    by exists ["replicas"].
Defined.

(** ** Activity handlers and their fallbacks *)

Lemma regular_loop_filter (act : Activity) (handlers : list ActivityHandler)
    (found : bool) :
  ActivityRegistry.regular_loop act handlers found =
  (List.filter (ActivityRegistry.regular_test act) handlers,
   found || existsb (ActivityRegistry.regular_test act) handlers).
Proof.
  revert found. induction handlers as [|h rest IH]; intros found; simpl.
  - by rewrite orb_false_r.
  - destruct (ActivityRegistry.regular_test act h); simpl.
    + rewrite IH. simpl. by rewrite orb_true_r.
    + apply IH.
Qed.

Lemma fallback_loop_filter (act : Activity) (handlers : list ActivityHandler) :
  ActivityRegistry.fallback_loop act handlers =
  List.filter (ActivityRegistry.fallback_test act) handlers.
Proof.
  induction handlers as [|h rest IH]; simpl; [done|].
  destruct (ActivityRegistry.fallback_test act h); by rewrite IH.
Qed.

Lemma existsb_filter_nil {A} (test : A → bool) (l : list A) :
  existsb test l = false ↔ List.filter test l = [].
Proof.
  induction l as [|x l IH]; simpl; [done|].
  destruct (test x); simpl; [split; discriminate|done].
Qed.

(** What [iter_handlers] yields: the handlers that pass the first test, in
    the order of registration, and only when there are none, those that
    pass the second. *)
Lemma activity_iter_handlers_filter (self : list ActivityHandler)
    (act : Activity) :
  ActivityRegistry.iter_handlers self act =
  match List.filter (ActivityRegistry.regular_test act) self with
  | [] => List.filter (ActivityRegistry.fallback_test act) self
  | regular => regular
  end.
Proof.
  unfold ActivityRegistry.iter_handlers.
  rewrite regular_loop_filter, fallback_loop_filter. simpl.
  destruct (existsb _ self) eqn:Hfound; simpl.
  - destruct (List.filter _ self) eqn:Hregular; [|done].
    apply existsb_filter_nil in Hregular. congruence.
  - apply existsb_filter_nil in Hfound. by rewrite Hfound.
Qed.

(** As long as every fallback handler names its activity, the non-fallback
    candidates are preferred, and the fallback candidates are yielded only
    when there is no other candidate. *)
Lemma activity_fallbacks_with_an_activity (self : list ActivityHandler)
    (act : Activity) :
  (∀ h, h ∈ self → _fallback h = true → activity h ≠ None) →
  ActivityRegistry.iter_handlers self act =
  match List.filter (λ h, candidate act h && negb (_fallback h)) self with
  | [] => List.filter (λ h, candidate act h && _fallback h) self
  | regular => regular
  end.
Proof.
  intros Hnamed. rewrite activity_iter_handlers_filter.
  assert (Hfirst : List.filter (ActivityRegistry.regular_test act) self =
            List.filter (λ h, candidate act h && negb (_fallback h)) self).
  { apply filter_ext_in. intros h Hin%list_elem_of_In.
    unfold ActivityRegistry.regular_test, candidate.
    specialize (Hnamed h Hin).
    destruct (_fallback h); [specialize (Hnamed eq_refl)|];
      repeat case_bool_decide; simpl; done. }
  rewrite <-Hfirst.
  destruct (List.filter (ActivityRegistry.regular_test act) self)
    eqn:Hregular; [|done].
  apply filter_ext_in. intros h Hin.
  assert (Hnot : ActivityRegistry.regular_test act h = false).
  { destruct (ActivityRegistry.regular_test act h) eqn:Htest; [|done].
    assert (Hin' : In h (List.filter (ActivityRegistry.regular_test act) self))
      by (by apply filter_In).
    rewrite Hregular in Hin'. destruct Hin'. }
  revert Hnot. unfold ActivityRegistry.regular_test,
    ActivityRegistry.fallback_test, candidate.
  destruct (_fallback h); repeat case_bool_decide; simpl; done.
Qed.

(** C1 at a registry the code breaks the claim on: a fallback handler
    registered for no activity in particular passes the test of the first
    loop, which reads [a or (b and not c)], and is yielded together with
    the non-fallback handler of the activity. *)
Theorem fallback_without_activity_is_yielded :
  let none := mkSettings None None None None None in
  let login := Function 1 "login" "login" "piggybacking.py" 10 in
  let mine := Function 2 "mine" "mine" "operator.py" 20 in
  let fallback := mkActivityHandler "login" login none None true in
  let regular :=
    mkActivityHandler "mine" mine none (Some "authentication") false in
  (self ← ActivityRegistry.register [] login (Some "login") none None true;
   ActivityRegistry.register self mine None none (Some "authentication")
     false) = Ok [fallback; regular]
  ∧ candidate "authentication" fallback = true
  ∧ candidate "authentication" regular = true
  ∧ ActivityRegistry.iter_handlers [fallback; regular] "authentication"
    = [fallback; regular]
  ∧ ActivityRegistry.get_handlers [fallback; regular] "authentication"
    = [fallback; regular]
  ∧ ActivityRegistry.iter_handlers [fallback] "authentication" = [fallback].
Proof. by vm_compute. Qed.

(** ** The matching engine as a whole *)

Lemma match_callback (handler : ResourceHandler) (cause : ResourceCause)
    (changed : gset FieldPath) (ignore_fields : bool) :
  match_ handler cause changed ignore_fields =
  match _matches_filter_callback handler cause with
  | Ok by_callback =>
      Ok (_matches_field handler changed ignore_fields
          && _matches_labels handler (cause_body cause)
          && _matches_annotations handler (cause_body cause)
          && by_callback)
  | Raise e => Raise e
  end.
Proof.
  unfold match_. rewrite or_empty_id.
  destruct (_matches_filter_callback handler cause) as [w|e]; simpl; [|done].
  by rewrite andb_true_r, !andb_assoc.
Qed.

Lemma match_true (handler : ResourceHandler) (cause : ResourceCause)
    (changed : gset FieldPath) (ignore_fields : bool) :
  match_ handler cause changed ignore_fields = Ok true ↔
    _matches_field handler changed ignore_fields = true
    ∧ _matches_labels handler (cause_body cause) = true
    ∧ _matches_annotations handler (cause_body cause) = true
    ∧ _matches_filter_callback handler cause = Ok true.
Proof.
  rewrite match_callback.
  destruct (_matches_filter_callback handler cause) as [w|e].
  - split.
    + intros [= Hall]. rewrite !andb_true_iff in Hall. naive_solver.
    + intros (-> & -> & -> & [= ->]). done.
  - naive_solver.
Qed.

Lemma match_returns (handler : ResourceHandler) (cause : ResourceCause)
    (changed : gset FieldPath) (ignore_fields : bool) :
  (∃ b, match_ handler cause changed ignore_fields = Ok b) ↔
  (∃ b, _matches_filter_callback handler cause = Ok b).
Proof.
  rewrite match_callback.
  destruct (_matches_filter_callback handler cause); naive_solver.
Qed.

(** ** Generators and loops over the handlers *)

Section Loops.
Context {T : Type} (test : T → result bool).

Lemma yield_where_Ok (handlers yielded : list T) :
  yield_where test handlers = Ok yielded →
  Forall (λ h, ∃ b, test h = Ok b) handlers
  ∧ ∀ h, h ∈ yielded ↔ h ∈ handlers ∧ test h = Ok true.
Proof.
  revert yielded. induction handlers as [|x rest IH]; intros yielded; simpl.
  - intros [= <-]. split; [constructor|]. intros h. set_solver.
  - destruct (test x) as [b|e] eqn:Hx; simpl; [|done].
    destruct (yield_where test rest) as [more|e]; simpl; [|done].
    intros [= <-]. destruct (IH more eq_refl) as [Hall Hmore].
    split; [constructor; eauto|].
    intros h. destruct b; rewrite ?elem_of_cons, Hmore;
      (split; intros Hh; destruct_or?; destruct_and?; destruct_or?; subst;
       try congruence; auto).
Qed.

Lemma yield_where_is_sublist (handlers yielded : list T) :
  yield_where test handlers = Ok yielded → sublist yielded handlers.
Proof.
  revert yielded. induction handlers as [|x rest IH]; intros yielded; simpl.
  - by intros [= <-].
  - destruct (test x) as [b|e]; simpl; [|done].
    destruct (yield_where test rest) as [more|e]; simpl; [|done].
    intros [= <-].
    destruct b; [apply sublist_skip | apply sublist_cons]; by apply IH.
Qed.

Lemma yield_where_returns (handlers : list T) :
  Forall (λ h, ∃ b, test h = Ok b) handlers →
  ∃ yielded, yield_where test handlers = Ok yielded.
Proof.
  induction 1 as [|x rest [b Hx] _ [more IH]]; simpl; [by eexists|].
  rewrite Hx, IH. simpl. by eexists.
Qed.

Lemma yield_where_raises (pre post : list T) (h : T) (e : exn) :
  Forall (λ h', ∃ b, test h' = Ok b) pre →
  test h = Raise e →
  yield_where test (pre ++ h :: post) = Raise (generator_raise e).
Proof.
  intros Hpre Hh. induction Hpre as [|x pre [b Hx] _ IH]; simpl.
  - by rewrite Hh.
  - by rewrite Hx, IH.
Qed.

Lemma return_true_at_first_true (handlers : list T) :
  return_true_at_first test handlers = Ok true ↔
  ∃ pre h post,
    handlers = pre ++ h :: post
    ∧ test h = Ok true
    ∧ Forall (λ h', ∃ b, test h' = Ok b) pre.
Proof.
  induction handlers as [|x rest IH]; simpl.
  - split; [done|]. intros (pre & ? & ? & Heq & _).
    by destruct pre.
  - destruct (test x) as [[]|e] eqn:Hx; simpl.
    + split; [|done]. intros _. exists [], x, rest. by split_and!.
    + rewrite IH. split.
      * intros (pre & h & post & -> & Hh & Hpre).
        exists (x :: pre), h, post. split_and!; [done|done|].
        constructor; eauto.
      * intros (pre & h & post & Heq & Hh & Hpre).
        destruct pre as [|y pre']; simpl in Heq; injection Heq as -> ->;
          [congruence|].
        exists pre', h, post. split_and!; [done|done|].
        by inversion Hpre.
    + split; [done|]. intros (pre & h & post & Heq & Hh & Hpre).
      destruct pre as [|y pre']; simpl in Heq; injection Heq as -> ->;
        [congruence|].
      inversion Hpre as [|?? [b Hb]]; congruence.
Qed.

Lemma return_true_at_first_returns (handlers : list T) :
  Forall (λ h, ∃ b, test h = Ok b) handlers →
  ∃ b, return_true_at_first test handlers = Ok b.
Proof.
  induction 1 as [|x rest [b Hx] _ IH]; simpl; [by eexists|].
  rewrite Hx. simpl. destruct b; [by eexists|done].
Qed.
End Loops.

(** ** Resource-changing handlers: reasons and initial handlers *)

Lemma selects_true (cause : ResourceChangingCause) (h : ResourceHandler) :
  ResourceChangingRegistry.selects cause h = Ok true ↔
    (flag_truthy (initial h) = true →
       c_initial cause = true
       ∧ (c_deleted cause = true → flag_truthy (deleted h) = true))
    ∧ remaining_rules cause h.
Proof.
  unfold ResourceChangingRegistry.selects, remaining_rules.
  destruct (flag_truthy (initial h)), (c_initial cause), (c_deleted cause),
    (flag_truthy (deleted h)); simpl;
    repeat case_bool_decide; simpl; naive_solver.
Qed.

(** C4: among the handlers that [iter_handlers] of a resource-changing
    registry yields, there is no initial handler when the cause is not
    initial, and none when the resource is deleted unless the handler is
    marked as usable on deletion; an initial handler that these two rules
    do not exclude, and any handler that is not initial, is yielded
    exactly when its reason fits and the matching engine accepts it. *)
Theorem initial_handlers_rule (self yielded : list ResourceHandler)
    (cause : ResourceChangingCause) :
  ResourceChangingRegistry.iter_handlers self cause = Ok yielded →
  (∀ h, flag_truthy (initial h) = true → c_initial cause = false →
        h ∉ yielded)
  ∧ (∀ h, flag_truthy (initial h) = true → c_deleted cause = true →
          flag_truthy (deleted h) = false → h ∉ yielded)
  ∧ (∀ h, h ∈ self → flag_truthy (initial h) = true →
          c_initial cause = true →
          c_deleted cause = false ∨ flag_truthy (deleted h) = true →
          (h ∈ yielded ↔ remaining_rules cause h))
  ∧ (∀ h, h ∈ self → flag_truthy (initial h) = false →
          (h ∈ yielded ↔ remaining_rules cause h)).
Proof.
  intros [_ Hyielded]%yield_where_Ok.
  split_and!.
  - intros h Hinit Hcause [_ Hsel]%Hyielded.
    apply selects_true in Hsel as [Hrule _].
    destruct (Hrule Hinit). congruence.
  - intros h Hinit Hdel Hok [_ Hsel]%Hyielded.
    apply selects_true in Hsel as [Hrule _].
    destruct (Hrule Hinit) as [_ Hd]. specialize (Hd Hdel). congruence.
  - intros h Hin Hinit Hcause Hdel.
    rewrite Hyielded, selects_true. split; [naive_solver|].
    intros Hrest. split_and!; [done|..|done].
    intros _. split; [done|]. intros Hd. destruct Hdel; congruence.
  - intros h Hin Hinit.
    rewrite Hyielded, selects_true. split; [naive_solver|].
    intros Hrest. split_and!; [done|..|done]. congruence.
Qed.

(** Two handlers for resuming, the second one usable on deletion, and the
    resuming of a resource that is being deleted. *)
Lemma initial_handlers_rule_witness :
  let on_resume deleted :=
    mkResourceHandler "resume" (Function 1 "resume" "resume" "op.py" 3)
      (mkSettings None None None None None)
      None None (Some true) deleted false None None None in
  let cause :=
    mkChangingCause ("", "v1", "pods") (mkBody None) "resume" None
      true true in
  (on_resume None ∉ [on_resume (Some true)])
  ∧ (on_resume (Some true) ∈ [on_resume (Some true)] ↔
       remaining_rules cause (on_resume (Some true))).
Proof.
  intros on_resume cause.
  destruct (initial_handlers_rule
              [on_resume None; on_resume (Some true)]
              [on_resume (Some true)] cause)
    as (_ & Hdeleted & Husable & _); [reflexivity|].
  split.
  - apply Hdeleted; reflexivity.
  - apply Husable; [|reflexivity|reflexivity|by right].
    apply elem_of_cons. right. apply elem_of_cons. by left.
Defined.

(** ** Finalizers *)

Lemma finalizer_test_true (cause : ResourceCause) (h : ResourceHandler) :
  finalizer_test cause h = Ok true ↔
    requires_finalizer h = true
    ∧ tuple_truthy (field h) = false
    ∧ _matches_labels h (cause_body cause) = true
    ∧ _matches_annotations h (cause_body cause) = true
    ∧ _matches_filter_callback h cause = Ok true.
Proof.
  unfold finalizer_test.
  destruct (requires_finalizer h); [|naive_solver].
  rewrite match_true, matches_field_spec. split.
  - intros ([?|[?|(path & f & _ & Hin & _)]] & ? & ? & ?); [done|done|].
    by apply not_elem_of_empty in Hin.
  - intros (_ & ? & ? & ? & ?). split_and!; auto.
Qed.

Lemma finalizer_test_returns (cause : ResourceCause) (h : ResourceHandler) :
  (∃ b, finalizer_test cause h = Ok b) ↔
  (requires_finalizer h = true →
   ∃ b, _matches_filter_callback h cause = Ok b).
Proof.
  unfold finalizer_test.
  destruct (requires_finalizer h).
  - rewrite match_returns. naive_solver.
  - split; [done|]. by eexists.
Qed.

(** C2, as stated, fails on a handler with a field: with the field rule
    ignored the matching engine accepts it, but [requires_finalizer] calls
    the engine with no changed fields and fields not ignored. *)
Lemma finalizer_of_a_field_handler :
  let h :=
    mkResourceHandler "cleanup/spec"
      (Function 1 "cleanup" "cleanup" "op.py" 3)
      (mkSettings None None None None None)
      None (Some ["spec"]) None None true None None None in
  let cause := Watching (mkWatchingCause ("", "v1", "pods") (mkBody None)) in
  ¬ (ResourceRegistry.requires_finalizer [h] cause = Ok true ↔
     ∃ h', h' ∈ [h] ∧ requires_finalizer h' = true
           ∧ match_ h' cause ∅ true = Ok true).
Proof.
  intros h cause [_ Hclaim].
  assert (Hfalse : ResourceRegistry.requires_finalizer [h] cause = Ok true).
  { apply Hclaim. exists h. split_and!; [|done..].
    apply elem_of_cons. by left. }
  vm_compute in Hfalse. discriminate.
Qed.

(** C2 (amended): [requires_finalizer] returns true exactly when some
    registered handler requires a finalizer and is accepted by the
    matching engine as it is called there, with the field rule in force
    and no changed fields: the handler has no field, and its label,
    annotation and callback rules hold for the cause (and the callback of
    no handler requiring a finalizer raised before it).  It returns as
    long as no such callback raises. *)
Theorem requires_finalizer_rule (self : list ResourceHandler)
    (cause : ResourceCause) :
  (ResourceRegistry.requires_finalizer self cause = Ok true ↔
   ∃ pre h post,
     self = pre ++ h :: post
     ∧ requires_finalizer h = true
     ∧ tuple_truthy (field h) = false
     ∧ _matches_labels h (cause_body cause) = true
     ∧ _matches_annotations h (cause_body cause) = true
     ∧ _matches_filter_callback h cause = Ok true
     ∧ Forall (λ h', requires_finalizer h' = true →
                     ∃ b, _matches_filter_callback h' cause = Ok b) pre)
  ∧ (Forall (λ h, requires_finalizer h = true →
                  ∃ b, _matches_filter_callback h cause = Ok b) self →
     ∃ b, ResourceRegistry.requires_finalizer self cause = Ok b).
Proof.
  unfold ResourceRegistry.requires_finalizer.
  fold (finalizer_test cause). split.
  - rewrite return_true_at_first_true.
    split; intros (pre & h & post & Heq & Hrest).
    + exists pre, h, post. split; [done|].
      destruct Hrest as [Hh Hpre]. apply finalizer_test_true in Hh.
      split_and!; try apply Hh.
      eapply Forall_impl; [exact Hpre|].
      intros h'. apply finalizer_test_returns.
    + exists pre, h, post. split; [done|].
      destruct Hrest as (? & ? & ? & ? & ? & Hpre). split.
      * by apply finalizer_test_true.
      * eapply Forall_impl; [exact Hpre|].
        intros h'. apply finalizer_test_returns.
  - intros Hall. apply return_true_at_first_returns.
    eapply Forall_impl; [exact Hall|].
    intros h'. apply finalizer_test_returns.
Qed.

Lemma requires_finalizer_rule_witness :
  let on_delete :=
    mkResourceHandler "cleanup" (Function 1 "cleanup" "cleanup" "op.py" 3)
      (mkSettings None None None None None)
      None None None None true None None None in
  let cause := Watching (mkWatchingCause ("", "v1", "pods") (mkBody None)) in
  ∃ b, ResourceRegistry.requires_finalizer [on_delete] cause = Ok b.
Proof.
  intros on_delete cause.
  apply (requires_finalizer_rule [on_delete] cause).
  constructor; [|constructor].
  intros _. exists true. reflexivity.
Defined.

(** ** The [when=] callbacks *)

Lemma selects_returns (cause : ResourceChangingCause) (h : ResourceHandler) :
  (∃ b, _matches_filter_callback h (Changing cause) = Ok b) →
  ∃ b, ResourceChangingRegistry.selects cause h = Ok b.
Proof.
  intros Hcb. unfold ResourceChangingRegistry.selects.
  repeat (case_match; try by eexists).
  by apply match_returns.
Qed.

Lemma selects_raises (cause : ResourceChangingCause) (h : ResourceHandler)
    (e : exn) :
  (reason h = None ∨ reason h = Some (c_reason cause)) →
  (flag_truthy (initial h) = true →
     c_initial cause = true
     ∧ (c_deleted cause = true → flag_truthy (deleted h) = true)) →
  _matches_filter_callback h (Changing cause) = Raise e →
  ResourceChangingRegistry.selects cause h = Raise e.
Proof.
  intros Hreason Hinit Hcb. unfold ResourceChangingRegistry.selects.
  rewrite match_callback, Hcb.
  destruct (flag_truthy (initial h)), (c_initial cause), (c_deleted cause),
    (flag_truthy (deleted h)); simpl;
    repeat case_bool_decide; simpl; naive_solver.
Qed.

Lemma guarded_getitem {A} (f : family) (resource : Resource)
    (k : list ResourceHandler → Op A) (otherwise : A)
    (self : OperatorRegistry) :
  (present ← Op.contains f resource;
   if present : bool
   then registry ← Op.getitem f resource; k registry
   else Op.ret otherwise) self =
  match family_map f self !! resource with
  | Some registry => k registry self
  | None => (Ok otherwise, self)
  end.
Proof.
  unfold mbind, Op_bind, Op.bind, Op.contains, Op.getitem. simpl.
  destruct (family_map f self !! resource) as [registry|] eqn:Hreg; simpl.
  - by rewrite Hreg.
  - done.
Qed.

(** C7, as stated, fails for a callback that raises [StopIteration]:
    [iter_handlers] is a generator, and the exception leaves it, and the
    selection, as a [RuntimeError]. *)
Lemma stop_iteration_of_a_callback :
  let stop :=
    UserError ["StopIteration"; "Exception"; "BaseException"; "object"] "" in
  let picky :=
    mkResourceHandler "picky" (Function 2 "picky" "picky" "op.py" 9)
      (mkSettings None None None None None)
      None None None None false None None (Some (λ _, Raise stop)) in
  let cause := mkWatchingCause ("", "v1", "pods") (mkBody None) in
  _matches_filter_callback picky (Watching cause) = Raise stop
  ∧ ResourceWatchingRegistry.get_handlers [picky] cause ≠ Raise stop
  ∧ ResourceWatchingRegistry.get_handlers [picky] cause
    = Raise (RuntimeError "generator raised StopIteration" stop).
Proof. by vm_compute. Qed.

(** C7 (amended): the callback rule passes for a handler without a
    callback, and is otherwise what the callback returns or raises; an
    exception of the callback comes out of [match] as it is, and ends the
    selection of the handlers, in the simple registries and in the
    operator registry: the first callback to raise, among the handlers
    that the selection reaches, makes the selection raise its exception
    as it is, unless that is a [StopIteration], in the place of which the
    selection raises the [RuntimeError] of the generator, caused by it.
    Nothing is retried or suppressed. *)
Theorem when_callback_rule :
  (∀ h cause, when h = None → _matches_filter_callback h cause = Ok true)
  ∧ (∀ h cause callback,
       when h = Some callback →
       _matches_filter_callback h cause = callback cause)
  ∧ (∀ h cause changed ignore_fields e,
       _matches_filter_callback h cause = Raise e →
       match_ h cause changed ignore_fields = Raise e)
  ∧ (∀ pre h post cause e,
       Forall (λ h', ∃ b, _matches_filter_callback h' (Watching cause) = Ok b)
              pre →
       _matches_filter_callback h (Watching cause) = Raise e →
       let raised :=
         if is_StopIteration e
         then RuntimeError "generator raised StopIteration" e
         else e in
       ResourceWatchingRegistry.get_handlers (pre ++ h :: post) cause
       = Raise raised
       ∧ ∀ self,
           _resource_watching_handlers self !! w_resource cause
           = Some (pre ++ h :: post) →
           OperatorRegistry.get_resource_watching_handlers cause self
           = (Raise raised, self))
  ∧ (∀ pre h post cause e,
       Forall (λ h', ∃ b, _matches_filter_callback h' (Changing cause) = Ok b)
              pre →
       (reason h = None ∨ reason h = Some (c_reason cause)) →
       (flag_truthy (initial h) = true →
          c_initial cause = true
          ∧ (c_deleted cause = true → flag_truthy (deleted h) = true)) →
       _matches_filter_callback h (Changing cause) = Raise e →
       let raised :=
         if is_StopIteration e
         then RuntimeError "generator raised StopIteration" e
         else e in
       ResourceChangingRegistry.get_handlers (pre ++ h :: post) cause
       = Raise raised
       ∧ ∀ self,
           _resource_changing_handlers self !! c_resource cause
           = Some (pre ++ h :: post) →
           OperatorRegistry.get_resource_changing_handlers cause self
           = (Raise raised, self)).
Proof.
  split_and!.
  - intros h cause Hwhen. unfold _matches_filter_callback. by rewrite Hwhen.
  - intros h cause callback Hwhen. unfold _matches_filter_callback.
    by rewrite Hwhen.
  - intros h cause changed ignore_fields e Hcb.
    by rewrite match_callback, Hcb.
  - intros pre h post cause e Hpre Hcb raised.
    assert (Hiter : ResourceWatchingRegistry.iter_handlers
                      (pre ++ h :: post) cause = Raise raised).
    { apply yield_where_raises.
      - eapply Forall_impl; [exact Hpre|]. intros h'. apply match_returns.
      - by rewrite match_callback, Hcb. }
    split.
    + unfold ResourceWatchingRegistry.get_handlers. by rewrite Hiter.
    + intros self Hreg.
      unfold OperatorRegistry.get_resource_watching_handlers,
        OperatorRegistry.iter_resource_watching_handlers.
      unfold mbind at 1, Op_bind at 1, Op.bind at 1.
      rewrite guarded_getitem. simpl. rewrite Hreg.
      unfold Op.lift. by rewrite Hiter.
  - intros pre h post cause e Hpre Hreason Hinit Hcb raised.
    assert (Hiter : ResourceChangingRegistry.iter_handlers
                      (pre ++ h :: post) cause = Raise raised).
    { apply yield_where_raises.
      - eapply Forall_impl; [exact Hpre|]. intros h'. apply selects_returns.
      - by apply selects_raises. }
    split.
    + unfold ResourceChangingRegistry.get_handlers. by rewrite Hiter.
    + intros self Hreg.
      unfold OperatorRegistry.get_resource_changing_handlers,
        OperatorRegistry.iter_resource_changing_handlers.
      unfold mbind at 1, Op_bind at 1, Op.bind at 1.
      rewrite guarded_getitem. simpl. rewrite Hreg.
      unfold Op.lift. by rewrite Hiter.
Qed.

(** A callback that looks up a missing key, behind a handler without a
    callback. *)
Lemma when_callback_rule_witness :
  let none := mkSettings None None None None None in
  let missing :=
    UserError ["KeyError"; "LookupError"; "Exception"; "BaseException";
               "object"] "spec" in
  let plain :=
    mkResourceHandler "plain" (Function 1 "plain" "plain" "op.py" 3) none
      None None None None false None None None in
  let picky :=
    mkResourceHandler "picky" (Function 2 "picky" "picky" "op.py" 9) none
      None None None None false None None (Some (λ _, Raise missing)) in
  let cause := mkWatchingCause ("", "v1", "pods") (mkBody None) in
  ResourceWatchingRegistry.get_handlers ([plain] ++ picky :: [plain]) cause
  = Raise missing.
Proof.
  intros none missing plain picky cause.
  destruct when_callback_rule as (_ & _ & _ & Hwatching & _).
  apply (Hwatching [plain] picky [plain] cause missing).
  - constructor; [|constructor]. exists true. reflexivity.
  - reflexivity.
Defined.

(** ** Resources without handlers in the operator registry *)

(** Looking a missing key up in a [defaultdict] does change it: the
    methods below never get there. *)
Lemma getitem_of_missing_key_inserts (f : family) (resource : Resource)
    (self : OperatorRegistry) :
  family_map f self !! resource = None →
  ∃ self', Op.getitem f resource self = (Ok [], self')
           ∧ family_map f self' !! resource = Some []
           ∧ self' ≠ self.
Proof.
  intros Hmissing. unfold Op.getitem. rewrite Hmissing.
  eexists. split; [done|].
  assert (Hnew : family_map f
            (set_family_map f (<[resource:=[]]> (family_map f self)) self)
            !! resource = Some []).
  { destruct f; simpl; apply lookup_insert_eq. }
  split; [done|]. intros Heq. rewrite Heq in Hnew. congruence.
Qed.

(** C8: for a resource without handlers of the family asked for, the
    methods of the operator registry return an empty list, an empty set
    or false, without raising, and leave the registry as it was; the
    resource is not added to the keys of its maps. *)
Theorem queries_without_handlers (self : OperatorRegistry) :
  (∀ cause,
     no_handlers WatchingFamily (w_resource cause) self →
     OperatorRegistry.iter_resource_watching_handlers cause self
     = (Ok [], self)
     ∧ OperatorRegistry.get_resource_watching_handlers cause self
       = (Ok [], self))
  ∧ (∀ cause,
       no_handlers ChangingFamily (c_resource cause) self →
       OperatorRegistry.iter_resource_changing_handlers cause self
       = (Ok [], self)
       ∧ OperatorRegistry.get_resource_changing_handlers cause self
         = (Ok [], self))
  ∧ (∀ resource,
       no_handlers WatchingFamily resource self →
       OperatorRegistry.has_resource_watching_handlers resource self
       = (Ok false, self))
  ∧ (∀ resource,
       no_handlers ChangingFamily resource self →
       OperatorRegistry.has_resource_changing_handlers resource self
       = (Ok false, self)
       ∧ OperatorRegistry.iter_extra_fields resource self = (Ok [], self)
       ∧ OperatorRegistry.get_extra_fields resource self = (Ok ∅, self)
       ∧ ∀ cause,
           OperatorRegistry.requires_finalizer resource cause self
           = (Ok false, self)).
Proof.
  split_and!.
  - intros cause Hno.
    assert (Hiter : OperatorRegistry.iter_resource_watching_handlers cause self
                    = (Ok [], self)).
    { unfold OperatorRegistry.iter_resource_watching_handlers.
      rewrite guarded_getitem. by destruct Hno as [-> | ->]. }
    split; [done|].
    unfold OperatorRegistry.get_resource_watching_handlers.
    unfold mbind, Op_bind, Op.bind. by rewrite Hiter.
  - intros cause Hno.
    assert (Hiter : OperatorRegistry.iter_resource_changing_handlers cause self
                    = (Ok [], self)).
    { unfold OperatorRegistry.iter_resource_changing_handlers.
      rewrite guarded_getitem. by destruct Hno as [-> | ->]. }
    split; [done|].
    unfold OperatorRegistry.get_resource_changing_handlers.
    unfold mbind, Op_bind, Op.bind. by rewrite Hiter.
  - intros resource Hno.
    unfold OperatorRegistry.has_resource_watching_handlers,
      OperatorRegistry.has_handlers.
    rewrite guarded_getitem. by destruct Hno as [-> | ->].
  - intros resource Hno.
    assert (Hfields : OperatorRegistry.iter_extra_fields resource self
                      = (Ok [], self)).
    { unfold OperatorRegistry.iter_extra_fields.
      rewrite guarded_getitem. by destruct Hno as [-> | ->]. }
    split_and!.
    + unfold OperatorRegistry.has_resource_changing_handlers,
        OperatorRegistry.has_handlers.
      rewrite guarded_getitem. by destruct Hno as [-> | ->].
    + done.
    + unfold OperatorRegistry.get_extra_fields.
      unfold mbind, Op_bind, Op.bind. by rewrite Hfields.
    + intros cause. unfold OperatorRegistry.requires_finalizer.
      rewrite guarded_getitem. by destruct Hno as [-> | ->].
Qed.

(** A new operator registry, asked about pods. *)
Lemma queries_without_handlers_witness :
  let pods : Resource := ("", "v1", "pods") in
  let cause := mkWatchingCause pods (mkBody None) in
  OperatorRegistry.get_resource_watching_handlers cause OperatorRegistry.init
  = (Ok [], OperatorRegistry.init)
  ∧ OperatorRegistry.has_resource_changing_handlers pods
      OperatorRegistry.init
    = (Ok false, OperatorRegistry.init)
  ∧ OperatorRegistry.get_extra_fields pods OperatorRegistry.init
    = (Ok ∅, OperatorRegistry.init).
Proof.
  intros pods cause.
  destruct (queries_without_handlers OperatorRegistry.init)
    as (Hwatching & _ & _ & Hchanging).
  split_and!.
  - apply (Hwatching cause). by left.
  - apply (Hchanging pods). by left.
  - apply (Hchanging pods). by left.
Defined.

(** * Further properties of the module *)

(** ** Activity handlers *)

Lemma filter_sublist {A} (test : A → bool) (l : list A) :
  sublist (List.filter test l) l.
Proof.
  induction l as [|x l IH]; simpl; [constructor|].
  destruct (test x); [by apply sublist_skip | by apply sublist_cons].
Qed.

Lemma elem_of_filter_bool {A} (test : A → bool) (l : list A) (x : A) :
  x ∈ List.filter test l ↔ x ∈ l ∧ test x = true.
Proof. rewrite !list_elem_of_In. apply filter_In. Qed.

Lemma filter_bool_nil {A} (test : A → bool) (l : list A) :
  List.filter test l = [] ↔ ∀ x, x ∈ l → test x = false.
Proof.
  split.
  - intros Hnil x Hin. apply not_true_is_false. intros Hx.
    assert (Hfx : x ∈ List.filter test l) by by apply elem_of_filter_bool.
    rewrite Hnil in Hfx. by apply elem_of_nil in Hfx.
  - intros Hall. induction l as [|x l IH]; simpl; [done|].
    rewrite (Hall x) by (apply elem_of_cons; by left).
    apply IH. intros y Hy. apply Hall, elem_of_cons. by right.
Qed.

Lemma regular_is_candidate (act : Activity) (h : ActivityHandler) :
  ActivityRegistry.regular_test act h = true → candidate act h = true.
Proof.
  unfold ActivityRegistry.regular_test, candidate.
  destruct (_fallback h); repeat case_bool_decide; simpl; naive_solver.
Qed.

Lemma fallback_is_candidate (act : Activity) (h : ActivityHandler) :
  ActivityRegistry.fallback_test act h = true → candidate act h = true.
Proof.
  unfold ActivityRegistry.fallback_test, candidate.
  destruct (_fallback h); repeat case_bool_decide; simpl; naive_solver.
Qed.

Lemma not_candidate_tests (act : Activity) (h : ActivityHandler) :
  candidate act h = false ↔
    ActivityRegistry.regular_test act h = false
    ∧ ActivityRegistry.fallback_test act h = false.
Proof.
  unfold ActivityRegistry.regular_test, ActivityRegistry.fallback_test,
    candidate.
  destruct (_fallback h); repeat case_bool_decide; simpl; naive_solver.
Qed.

(** X1: the handlers yielded for an activity are handlers of the
    registry in the order of their registration, each at most once; all of
    them are registered for no activity in particular or for this one; and
    nothing is yielded only when the registry has no such handler. *)
Theorem activity_handlers_yielded (self : list ActivityHandler)
    (act : Activity) :
  sublist (ActivityRegistry.iter_handlers self act) self
  ∧ (∀ h, h ∈ ActivityRegistry.iter_handlers self act →
          candidate act h = true)
  ∧ (ActivityRegistry.iter_handlers self act = [] ↔
     ∀ h, h ∈ self → candidate act h = false).
Proof.
  rewrite activity_iter_handlers_filter.
  destruct (List.filter (ActivityRegistry.regular_test act) self)
    as [|r regular] eqn:Hregular.
  - split_and!.
    + apply filter_sublist.
    + intros h [_ Hh]%elem_of_filter_bool. by apply fallback_is_candidate.
    + rewrite filter_bool_nil. rewrite filter_bool_nil in Hregular.
      split.
      * intros Hfb h Hin. apply not_candidate_tests. auto.
      * intros Hnone h Hin. by apply not_candidate_tests, Hnone.
  - rewrite <-Hregular. split_and!.
    + apply filter_sublist.
    + intros h [_ Hh]%elem_of_filter_bool. by apply regular_is_candidate.
    + split; [by rewrite Hregular|].
      intros Hnone. apply filter_bool_nil.
      intros h Hin. by apply not_candidate_tests, Hnone.
Qed.

(** X2: in a registry whose fallback handlers all name their activity,
    the fallback handlers give way: if some candidate is not a fallback,
    exactly the candidates that are not fallbacks are yielded, and
    otherwise exactly the fallback candidates, in the order of
    registration. *)
Theorem activity_fallbacks_give_way (self : list ActivityHandler)
    (act : Activity) :
  (∀ h, h ∈ self → _fallback h = true → activity h ≠ None) →
  ((∃ h, h ∈ self ∧ candidate act h = true ∧ _fallback h = false) →
   ActivityRegistry.iter_handlers self act =
   List.filter (λ h, candidate act h && negb (_fallback h)) self)
  ∧ ((∀ h, h ∈ self → candidate act h = true → _fallback h = true) →
     ActivityRegistry.iter_handlers self act =
     List.filter (λ h, candidate act h && _fallback h) self).
Proof.
  intros Hnamed.
  rewrite (activity_fallbacks_with_an_activity self act Hnamed).
  split.
  - intros (h & Hin & Hcand & Hfb).
    destruct (List.filter _ self) as [|r regular] eqn:Hregular; [|done].
    rewrite filter_bool_nil in Hregular.
    specialize (Hregular h Hin). rewrite Hcand, Hfb in Hregular. done.
  - intros Hall.
    destruct (List.filter (λ h, candidate act h && negb (_fallback h)) self)
      as [|r regular] eqn:Hregular; [done|].
    assert (Hr : r ∈ List.filter
              (λ h, candidate act h && negb (_fallback h)) self)
      by (rewrite Hregular; apply elem_of_cons; by left).
    apply elem_of_filter_bool in Hr as [Hin Hr].
    apply andb_true_iff in Hr as [Hcand Hfb].
    rewrite (Hall r Hin Hcand) in Hfb. done.
Qed.

(** The logins of the operator and a login of the user. *)
Lemma activity_fallbacks_give_way_witness :
  let none := mkSettings None None None None None in
  let login :=
    mkActivityHandler "login" (Function 1 "login" "login" "p.py" 10) none
      (Some "authentication") true in
  let mine :=
    mkActivityHandler "mine" (Function 2 "mine" "mine" "o.py" 20) none
      (Some "authentication") false in
  ActivityRegistry.iter_handlers [login; mine] "authentication" =
  List.filter (λ h, candidate "authentication" h && negb (_fallback h))
              [login; mine].
Proof.
  intros none login mine.
  apply (activity_fallbacks_give_way [login; mine] "authentication").
  - intros h Hin Hfb.
    apply elem_of_cons in Hin as [->|Hin]; [discriminate|].
    apply elem_of_cons in Hin as [->|Hin]; [discriminate|].
    by apply elem_of_nil in Hin.
  - exists mine. split_and!; [|reflexivity..].
    apply elem_of_cons. right. apply elem_of_cons. by left.
Defined.

Lemma handler_settings_spec (given : Settings) :
  match handler_settings given with
  | Ok stored =>
      (backoff given = None ∨ cooldown given = None)
      ∧ errors stored = errors given
      ∧ timeout stored = timeout given
      ∧ retries stored = retries given
      ∧ backoff stored = match backoff given with
                         | Some b => Some b
                         | None => cooldown given
                         end
      ∧ cooldown stored = backoff stored
  | Raise e =>
      e = TypeError ∧ is_Some (backoff given) ∧ is_Some (cooldown given)
  end.
Proof.
  unfold handler_settings.
  destruct (backoff given) as [b|] eqn:Hb, (cooldown given) as [c|] eqn:Hc;
    simpl; split_and!; eauto; congruence.
Qed.

(** X3: the registration of an activity handler succeeds exactly when an
    id is given or the function has an identity, and not both a backoff
    and a cooldown are given; it then adds one handler at the end of the
    registry and leaves the handlers registered before as they were.  The
    new handler has the id given or else the id of the function, and the
    settings given, its backoff being the backoff or else the cooldown
    given, under both names.  With an id to use, a backoff together with
    a cooldown makes the registration raise the [TypeError] of the
    constructor. *)
Theorem activity_register_appends (self : list ActivityHandler)
    (fn : callable) (id : option string) (settings : Settings)
    (act : option Activity) (fallback : bool) :
  ((∃ self', ActivityRegistry.register self fn id settings act fallback
             = Ok self')
   ↔ (is_Some id ∨ has_identity fn = true)
     ∧ (backoff settings = None ∨ cooldown settings = None))
  ∧ (∀ self',
       ActivityRegistry.register self fn id settings act fallback = Ok self' →
       ∃ real_id stored,
         self' = self ++ [mkActivityHandler real_id fn stored act fallback]
         ∧ match id with
           | Some given => real_id = given
           | None => get_callable_id fn = Ok real_id
           end
         ∧ errors stored = errors settings
         ∧ timeout stored = timeout settings
         ∧ retries stored = retries settings
         ∧ backoff stored = match backoff settings with
                            | Some b => Some b
                            | None => cooldown settings
                            end
         ∧ cooldown stored = backoff stored)
  ∧ (is_Some id ∨ has_identity fn = true →
     is_Some (backoff settings) → is_Some (cooldown settings) →
     ActivityRegistry.register self fn id settings act fallback
     = Raise TypeError).
Proof.
  pose proof (handler_settings_spec settings) as Hsettings.
  assert (Hid : (∃ real_id, generate_id fn id None None = Ok real_id
                   ∧ match id with
                     | Some given => real_id = given
                     | None => get_callable_id fn = Ok real_id
                     end)
                ↔ is_Some id ∨ has_identity fn = true).
  { unfold generate_id. destruct id as [given|]; simpl.
    - split; [intros _; left; by eexists | intros _; by eexists].
    - destruct (has_identity fn) eqn:Hfn.
      + destruct (get_callable_id_returns fn Hfn) as [name ->]. simpl.
        split; [by right | by eexists].
      + destruct (get_callable_id_raises fn Hfn) as [msg ->]. simpl.
        split; [by intros (? & ? & ?) | intros [[? ?]|?]; done]. }
  unfold ActivityRegistry.register, append.
  destruct (generate_id fn id None None) as [real_id|e] eqn:Hgen; simpl.
  - assert (Hidok : is_Some id ∨ has_identity fn = true).
    { apply Hid. exists real_id. split; [done|].
      unfold generate_id in Hgen. destruct id as [given|]; simpl in Hgen.
      - by injection Hgen as <-.
      - destruct (get_callable_id fn); simpl in Hgen; [|done].
        by injection Hgen as <-. }
    destruct (handler_settings settings) as [stored|e]; simpl.
    + split_and!.
      * split; [intros _; split; [done|apply Hsettings] | by eexists].
      * intros self' [= <-]. exists real_id, stored.
        split; [done|]. split; [|apply Hsettings].
        apply Hid in Hidok as (rid & Hrid & Hmatch).
        by injection Hrid as <-.
      * intros _ [b Hb] [c Hc]. destruct Hsettings as [[?|?] _]; congruence.
    + destruct Hsettings as (-> & Hb & Hc). split_and!.
      * split; [by intros [? ?]|].
        intros [_ [Hnone|Hnone]]; rewrite Hnone in *;
          [by destruct Hb | by destruct Hc].
      * done.
      * done.
  - assert (Hno : ¬ (is_Some id ∨ has_identity fn = true)).
    { intros (rid & ? & _)%Hid. congruence. }
    split_and!; [|done|by intros ?].
    split; [by intros [? ?] | by intros [? _]].
Qed.

(** ** Ids of callables *)

(** X4: the id of a callable is the id of the callable under its layers
    of partial application and wrapping; it exists exactly when that
    callable is a function or a method. *)
Theorem callable_id_of_innermost (c : callable) :
  get_callable_id c = get_callable_id (innermost c)
  ∧ ((∃ name, get_callable_id c = Ok name) ↔ has_identity c = true)
  ∧ (has_identity c = true ↔
     match innermost c with
     | Function _ _ _ _ _ | Method _ _ _ _ => True
     | _ => False
     end).
Proof.
  split_and!.
  - induction c; simpl; auto.
  - split.
    + intros [name Hname]. destruct (has_identity c) eqn:Hc; [done|].
      destruct (get_callable_id_raises c Hc) as [msg Hmsg]. congruence.
    + apply get_callable_id_returns.
  - induction c; simpl; auto; split; done.
Qed.

Lemma append_cancel_l (a b c : string) : a +:+ b = a +:+ c → b = c.
Proof. induction a as [|x a IH]; simpl; [done|]. intros [= ?]. auto. Qed.

Lemma append_not_self (a b : string) : a +:+ "/" +:+ b ≠ a.
Proof. induction a as [|x a IH]; simpl; [done|]. intros [= ?]. auto. Qed.

(** X5: with the same function, id and prefix, two suffixes give the same
    id only when they are the same suffix: an id with a suffix differs
    from the id without one and from the id with any other suffix. *)
Theorem generate_id_tells_suffixes_apart (fn : callable) (id : option string)
    (prefix suffix1 suffix2 : option string) (real_id : string) :
  generate_id fn id prefix suffix1 = Ok real_id →
  generate_id fn id prefix suffix2 = Ok real_id →
  str_truthy suffix1 = true →
  suffix1 = suffix2.
Proof.
  unfold generate_id.
  destruct (match id with Some i => Ok i | None => get_callable_id fn end)
    as [base|e]; simpl; [|done].
  intros [= H1] [= H2] Hs1. rewrite <-H1 in H2. clear H1.
  assert (Hsuffixed :
    (if negb (str_truthy suffix2) then base
     else base +:+ "/" +:+ default "" suffix2)
    = (if negb (str_truthy suffix1) then base
       else base +:+ "/" +:+ default "" suffix1)).
  { destruct (str_truthy prefix); simpl in H2; [|done].
    by apply append_cancel_l, append_cancel_l in H2. }
  rewrite Hs1 in Hsuffixed. simpl in Hsuffixed.
  destruct (str_truthy suffix2) eqn:Hs2; simpl in Hsuffixed.
  - apply append_cancel_l, append_cancel_l in Hsuffixed.
    destruct suffix1 as [s1|], suffix2 as [s2|]; simpl in *; congruence.
  - symmetry in Hsuffixed. by apply append_not_self in Hsuffixed.
Qed.

Lemma generate_id_tells_suffixes_apart_witness :
  Some "spec.replicas" = Some "spec.replicas".
Proof.
  apply (generate_id_tells_suffixes_apart
           (Function 1 "scale" "scale" "op.py" 7) None (Some "parent")
           (Some "spec.replicas") (Some "spec.replicas")
           "parent/scale/spec.replicas"); reflexivity.
Defined.

(** ** Registration of resource handlers *)

(** X6: a successful registration of a resource handler adds one handler
    at the end of the registry: it carries the function and the filters
    given, the settings given with the backoff or else the cooldown as
    its backoff (never both: the constructor refuses them), the parsed
    field, or no field when the parsed path is empty (a registry filled
    by [register] never holds a handler with an empty field), the reason
    given, or else the reason of the deprecated event name, and the id
    generated with the dotted field as its suffix. *)
Theorem resource_register_appends {FieldSpec : Type}
    (Reason_of_event : string → result Reason)
    (parse_field : option FieldSpec → FieldPath)
    (self self' : list ResourceHandler) (fn : callable) (id : option string)
    (rsn : option Reason) (ev : option string) (fld : option FieldSpec)
    (settings : Settings) (ini del : option bool) (fin : bool)
    (lab ann : option (gmap string (option string)))
    (wh : option WhenHandlerFn) :
  ResourceRegistry.register Reason_of_event parse_field self fn id rsn ev fld
    settings ini del fin lab ann wh = Ok self' →
  ∃ h,
    self' = self ++ [h]
    ∧ r_fn h = fn
    ∧ initial h = ini ∧ deleted h = del ∧ requires_finalizer h = fin
    ∧ labels h = lab ∧ annotations h = ann ∧ when h = wh
    ∧ (backoff settings = None ∨ cooldown settings = None)
    ∧ errors (r_settings h) = errors settings
    ∧ timeout (r_settings h) = timeout settings
    ∧ retries (r_settings h) = retries settings
    ∧ backoff (r_settings h) = match backoff settings with
                               | Some b => Some b
                               | None => cooldown settings
                               end
    ∧ cooldown (r_settings h) = backoff (r_settings h)
    ∧ default [] (field h) = parse_field fld
    ∧ field h ≠ Some []
    ∧ match rsn, ev with
      | None, Some name => Some <$> Reason_of_event name = Ok (reason h)
      | _, _ => reason h = rsn
      end
    ∧ generate_id fn id None
        (Some (String.concat "." (parse_field fld))) = Ok (r_id h)
    ∧ (Forall (λ h', field h' ≠ Some []) self →
       Forall (λ h', field h' ≠ Some []) self').
Proof.
  unfold ResourceRegistry.register, append.
  set (resolved := match rsn, ev with
                   | None, Some name => Some <$> Reason_of_event name
                   | _, _ => Ok rsn
                   end).
  assert (Hres : ∃ r, resolved = r) by by eexists.
  destruct Hres as [[r|e] Hres]; rewrite Hres; simpl; [|done].
  unfold resolved in Hres. clear resolved.
  assert (Hfield : default [] (match parse_field fld with
                               | [] => None
                               | path => Some path
                               end) = parse_field fld)
    by (by destruct (parse_field fld)).
  rewrite Hfield.
  destruct (generate_id fn id None _) as [real_id|e] eqn:Hid; simpl; [|done].
  pose proof (handler_settings_spec settings) as Hsettings.
  destruct (handler_settings settings) as [stored|e]; simpl; [|done].
  intros [= <-]. eexists. split; [done|]. simpl.
  assert (Hne : match parse_field fld with
                | [] => None
                | s :: l => Some (s :: l)
                end ≠ Some []) by (by destruct (parse_field fld)).
  split_and!; try done; try apply Hsettings.
  - destruct rsn, ev; simpl in *; congruence.
  - intros Hself. apply Forall_app. split; [done|]. by constructor.
Qed.

(** A handler of a field, registered under the deprecated event name and
    with a cooldown. *)
Lemma resource_register_appends_witness :
  let h :=
    mkResourceHandler "scale/spec.replicas"
      (Function 1 "scale" "scale" "op.py" 7)
      (mkSettings None None None (Some "2.5") (Some "2.5"))
      (Some "update") (Some ["spec"; "replicas"]) None None false
      None None None in
  ∃ h', [h] = [] ++ [h'] ∧ field h' ≠ Some []
        ∧ backoff (r_settings h') = Some "2.5".
Proof.
  intros h.
  destruct (resource_register_appends (FieldSpec := list string)
              Ok (default []) [] [h]
              (Function 1 "scale" "scale" "op.py" 7) None None
              (Some "update") (Some ["spec"; "replicas"])
              (mkSettings None None None None (Some "2.5")) None None false
              None None None eq_refl)
    as (h' & Heq & _ & _ & _ & _ & _ & _ & _ & _ & _ & _ & _ & Hbackoff & _
        & _ & Hne & _).
  exists h'. by split_and!.
Defined.

(** ** More on the deduplication *)

Section MoreDeduplication.
Context {T : Type} {handler_T : Handler T}.

Lemma deduplicated_from_distinct (seen : gset N) (handlers : list T) :
  NoDup (fn_identity <$> handlers) →
  (∀ h, h ∈ handlers → fn_identity h ∉ seen) →
  _deduplicated_from seen handlers = handlers.
Proof.
  revert seen. induction handlers as [|x rest IH]; intros seen; simpl;
    [done|].
  intros [Hx Hrest]%NoDup_cons Hseen.
  rewrite bool_decide_eq_false_2
    by (apply (Hseen x), elem_of_cons; by left).
  f_equal. apply IH; [done|].
  intros h Hin. apply not_elem_of_union. split.
  - intros Heq%elem_of_singleton. apply Hx. unfold fn_identity at 1.
    rewrite <-Heq. apply list_elem_of_fmap. by exists h.
  - apply Hseen, elem_of_cons. by right.
Qed.

Lemma deduplicated_from_identities (seen : gset N) (handlers : list T)
    (i : N) :
  i ∈ fn_identity <$> _deduplicated_from seen handlers ↔
  i ∈ fn_identity <$> handlers ∧ i ∉ seen.
Proof.
  revert seen. induction handlers as [|x rest IH]; intros seen.
  - simpl. rewrite elem_of_nil. naive_solver.
  - cbn [_deduplicated_from]. fold (fn_identity x).
    rewrite (fmap_cons fn_identity x rest), elem_of_cons.
    case_bool_decide as Hseen.
    + rewrite IH. naive_solver.
    + rewrite fmap_cons, elem_of_cons, IH.
      rewrite not_elem_of_union, not_elem_of_singleton.
      destruct (decide (i = fn_identity x)); naive_solver.
Qed.
End MoreDeduplication.

(** X7: deduplicating twice changes nothing more. *)
Theorem deduplicated_idempotent {T : Type} {handler_T : Handler T}
    (handlers : list T) :
  _deduplicated (_deduplicated handlers) = _deduplicated handlers.
Proof.
  unfold _deduplicated at 1. apply deduplicated_from_distinct.
  - apply deduplicated_from_NoDup.
  - intros h _. apply not_elem_of_empty.
Qed.

(** X8: handlers of functions that are all different are all kept, as
    they come. *)
Theorem deduplicated_of_distinct {T : Type} {handler_T : Handler T}
    (handlers : list T) :
  NoDup (fn_identity <$> handlers) → _deduplicated handlers = handlers.
Proof.
  intros Hdistinct. apply deduplicated_from_distinct; [done|].
  intros h _. apply not_elem_of_empty.
Qed.

Lemma deduplicated_of_distinct_witness :
  let none := mkSettings None None None None None in
  let first := mkActivityHandler "a" (Function 1 "a" "a" "op.py" 1) none
                 None false in
  let second := mkActivityHandler "b" (Function 2 "b" "b" "op.py" 5) none
                  None false in
  _deduplicated [first; second] = [first; second].
Proof.
  intros none first second.
  apply (deduplicated_of_distinct [first; second]).
  apply (bool_decide_unpack _). vm_compute. exact I.
Defined.

(** X9: the deduplication loses no function: the functions of the
    handlers kept are the functions of the handlers given. *)
Theorem deduplicated_keeps_every_function {T : Type} {handler_T : Handler T}
    (handlers : list T) (i : N) :
  i ∈ fn_identity <$> _deduplicated handlers ↔ i ∈ fn_identity <$> handlers.
Proof.
  unfold _deduplicated. rewrite deduplicated_from_identities.
  split; [by intros [? _] | intros ?; split; [done|apply not_elem_of_empty]].
Qed.

(** ** Selection in the resource registries *)

Section MoreLoops.
Context {T : Type} (test : T → result bool).

Lemma yield_where_Raise (handlers : list T) (e : exn) :
  yield_where test handlers = Raise e ↔
  ∃ pre h post raised,
    handlers = pre ++ h :: post
    ∧ Forall (λ h', ∃ b, test h' = Ok b) pre
    ∧ test h = Raise raised
    ∧ e = generator_raise raised.
Proof.
  split.
  - induction handlers as [|x rest IH]; simpl; [done|].
    destruct (test x) as [b|e'] eqn:Hx.
    + destruct (yield_where test rest) as [more|e'']; simpl; [done|].
      intros [= ->].
      destruct (IH eq_refl) as (pre & h & post & raised & -> & Hpre & Hh & ->).
      exists (x :: pre), h, post, raised. split_and!; [done| |done|done].
      constructor; eauto.
    + intros [= <-]. exists [], x, rest, e'. by split_and!.
  - intros (pre & h & post & raised & -> & Hpre & Hh & ->).
    by apply yield_where_raises.
Qed.
End MoreLoops.

(** X10: every selection returns handlers of the registry in the order of
    their registration, and no function twice. *)
Theorem selections_keep_the_order :
  (∀ self act,
     sublist (ActivityRegistry.get_handlers self act) self
     ∧ NoDup (fn_identity <$> ActivityRegistry.get_handlers self act))
  ∧ (∀ self cause selected,
       ResourceWatchingRegistry.get_handlers self cause = Ok selected →
       sublist selected self ∧ NoDup (fn_identity <$> selected))
  ∧ (∀ self cause selected,
       ResourceChangingRegistry.get_handlers self cause = Ok selected →
       sublist selected self ∧ NoDup (fn_identity <$> selected)).
Proof.
  split_and!.
  - intros self act. unfold ActivityRegistry.get_handlers. split.
    + etrans; [apply deduplicated_from_sublist|].
      rewrite activity_iter_handlers_filter.
      destruct (List.filter (ActivityRegistry.regular_test act) self)
        eqn:Hregular; [|rewrite <-Hregular]; apply filter_sublist.
    + apply deduplicated_from_NoDup.
  - intros self cause selected.
    unfold ResourceWatchingRegistry.get_handlers,
      ResourceWatchingRegistry.iter_handlers.
    destruct (yield_where _ self) as [yielded|e] eqn:Hiter; simpl; [|done].
    intros [= <-]. split.
    + etrans; [apply deduplicated_from_sublist|].
      by eapply yield_where_is_sublist.
    + apply deduplicated_from_NoDup.
  - intros self cause selected.
    unfold ResourceChangingRegistry.get_handlers,
      ResourceChangingRegistry.iter_handlers.
    destruct (yield_where _ self) as [yielded|e] eqn:Hiter; simpl; [|done].
    intros [= <-]. split.
    + etrans; [apply deduplicated_from_sublist|].
      by eapply yield_where_is_sublist.
    + apply deduplicated_from_NoDup.
Qed.

Lemma selections_keep_the_order_witness :
  let none := mkSettings None None None None None in
  let fn := Function 1 "fn" "fn" "op.py" 3 in
  let on reason :=
    mkResourceHandler "fn" fn none reason None None None false
      None None None in
  let cause := mkChangingCause ("", "v1", "pods") (mkBody None) "create"
                 None false false in
  sublist [on (Some "create")] [on (Some "create"); on None]
  ∧ NoDup (fn_identity <$> [on (Some "create")]).
Proof.
  intros none fn on cause.
  destruct selections_keep_the_order as (_ & _ & Hchanging).
  apply (Hchanging [on (Some "create"); on None] cause). reflexivity.
Defined.

(** X11: a resource-watching registry yields exactly its handlers whose
    labels, annotations and callback accept the cause: the field of a
    handler plays no part there. *)
Theorem watching_handlers_yielded (self yielded : list ResourceHandler)
    (cause : ResourceWatchingCause) :
  ResourceWatchingRegistry.iter_handlers self cause = Ok yielded →
  ∀ h, h ∈ yielded ↔
       h ∈ self
       ∧ _matches_labels h (w_body cause) = true
       ∧ _matches_annotations h (w_body cause) = true
       ∧ _matches_filter_callback h (Watching cause) = Ok true.
Proof.
  intros [_ Hyielded]%yield_where_Ok h.
  rewrite Hyielded, match_true. simpl.
  assert (Hfield : _matches_field h ∅ true = true) by done.
  naive_solver.
Qed.

Lemma watching_handlers_yielded_witness :
  let h :=
    mkResourceHandler "on_spec" (Function 1 "f" "f" "op.py" 3)
      (mkSettings None None None None None)
      None (Some ["spec"]) None None false None None None in
  let cause := mkWatchingCause ("", "v1", "pods") (mkBody None) in
  h ∈ [h] ↔
    h ∈ [h]
    ∧ _matches_labels h (w_body cause) = true
    ∧ _matches_annotations h (w_body cause) = true
    ∧ _matches_filter_callback h (Watching cause) = Ok true.
Proof.
  intros h cause.
  apply (watching_handlers_yielded [h] [h] cause). reflexivity.
Defined.

Lemma selects_Raise (cause : ResourceChangingCause) (h : ResourceHandler)
    (e : exn) :
  ResourceChangingRegistry.selects cause h = Raise e ↔
  reached cause h ∧ _matches_filter_callback h (Changing cause) = Raise e.
Proof.
  unfold ResourceChangingRegistry.selects, reached.
  rewrite match_callback.
  destruct (_matches_filter_callback h (Changing cause)) as [w|e'];
    destruct (flag_truthy (initial h)), (c_initial cause), (c_deleted cause),
      (flag_truthy (deleted h)); simpl;
    repeat case_bool_decide; simpl; naive_solver.
Qed.

Lemma selects_Ok (cause : ResourceChangingCause) (h : ResourceHandler) :
  (∃ b, ResourceChangingRegistry.selects cause h = Ok b) ↔
  (reached cause h →
   ∃ b, _matches_filter_callback h (Changing cause) = Ok b).
Proof.
  split.
  - intros [b Hb] Hreached.
    destruct (_matches_filter_callback h (Changing cause)) as [w|e] eqn:Hcb;
      [by eexists|].
    assert (ResourceChangingRegistry.selects cause h = Raise e)
      by by apply selects_Raise.
    congruence.
  - intros Hcb.
    destruct (ResourceChangingRegistry.selects cause h) as [b|e] eqn:Hsel;
      [by eexists|].
    apply selects_Raise in Hsel as [Hreached Hraise].
    destruct (Hcb Hreached) as [b Hb]. congruence.
Qed.

(** X12: the selection in a resource-changing registry raises only
    because a callback raises: it raises exactly when some callback
    raises among the handlers whose reason fits and that the rules on
    initial handlers do not skip; it then raises what the first such
    callback raised, or the [RuntimeError] of the generator in the place
    of a [StopIteration].  The callbacks of the other handlers are not
    called, and the selection returns whenever the callbacks that are
    called do. *)
Theorem changing_selection_raises (self : list ResourceHandler)
    (cause : ResourceChangingCause) :
  (∀ e,
     ResourceChangingRegistry.get_handlers self cause = Raise e ↔
     ∃ pre h post raised,
       self = pre ++ h :: post
       ∧ Forall (λ h', reached cause h' →
                       ∃ b, _matches_filter_callback h' (Changing cause)
                            = Ok b) pre
       ∧ reached cause h
       ∧ _matches_filter_callback h (Changing cause) = Raise raised
       ∧ e = if is_StopIteration raised
             then RuntimeError "generator raised StopIteration" raised
             else raised)
  ∧ ((∃ selected,
        ResourceChangingRegistry.get_handlers self cause = Ok selected) ↔
     Forall (λ h, reached cause h →
                  ∃ b, _matches_filter_callback h (Changing cause) = Ok b)
            self).
Proof.
  unfold ResourceChangingRegistry.get_handlers,
    ResourceChangingRegistry.iter_handlers.
  split.
  - intros e.
    assert (Hget : _deduplicated <$>
                     yield_where (ResourceChangingRegistry.selects cause) self
                   = Raise e ↔
                   yield_where (ResourceChangingRegistry.selects cause) self
                   = Raise e).
    { destruct (yield_where _ self); simpl; naive_solver. }
    rewrite Hget, yield_where_Raise.
    split; intros (pre & h & post & raised & -> & Hpre & Hh);
      exists pre, h, post, raised.
    + destruct Hh as [Hh ->].
      apply selects_Raise in Hh as [? ?]. split_and!; try done.
      eapply Forall_impl; [exact Hpre|]. intros h'. apply selects_Ok.
    + destruct Hh as (? & ? & ->).
      split_and!; [done| |by apply selects_Raise|done].
      eapply Forall_impl; [exact Hpre|]. intros h'. apply selects_Ok.
  - split.
    + intros [selected Hsel].
      destruct (yield_where _ self) as [yielded|e] eqn:Hiter; [|done].
      apply yield_where_Ok in Hiter as [Hall _].
      eapply Forall_impl; [exact Hall|]. intros h'. apply selects_Ok.
    + intros Hall.
      destruct (yield_where_returns (ResourceChangingRegistry.selects cause)
                  self) as [yielded ->]; [|by eexists].
      eapply Forall_impl; [exact Hall|]. intros h'. apply selects_Ok.
Qed.

(** ** More on the matching engine *)

(** X13: changes of more fields never make the engine reject a handler
    that it accepts: if a handler matches a cause with some changed
    fields, it matches it with any larger set of changed fields. *)
Theorem match_with_more_changes (handler : ResourceHandler)
    (cause : ResourceCause) (changed changed' : gset FieldPath)
    (ignore_fields : bool) :
  changed ⊆ changed' →
  match_ handler cause changed ignore_fields = Ok true →
  match_ handler cause changed' ignore_fields = Ok true.
Proof.
  intros Hsub. rewrite !match_true, !matches_field_spec.
  intros ([?|[?|(path & f & ? & Hin & ?)]] & ? & ? & ?);
    split_and!; auto.
  right; right. exists path, f. split_and!; auto.
Qed.

Lemma match_with_more_changes_witness :
  let h :=
    mkResourceHandler "on_spec" (Function 1 "f" "f" "op.py" 3)
      (mkSettings None None None None None)
      None (Some ["spec"]) None None false None None None in
  let cause := Watching (mkWatchingCause ("", "v1", "pods") (mkBody None)) in
  match_ h cause {[ ["spec"; "replicas"]; ["status"] ]} false = Ok true.
Proof.
  intros h cause.
  apply (match_with_more_changes h cause {[ ["spec"; "replicas"] ]}).
  - apply union_subseteq_l.
  - reflexivity.
Defined.

(** X14: a selector that holds keeps holding when the body gets more
    labels or annotations, and when the selector asks for less. *)
Theorem matches_metadata_monotone (pattern pattern' : gmap string (option string))
    (content content' : gmap string string) :
  pattern' ⊆ pattern → content ⊆ content' →
  _matches_metadata pattern content = true →
  _matches_metadata pattern' content' = true.
Proof.
  intros Hpattern Hcontent. rewrite !matches_metadata_spec.
  intros Hholds key value Hkey.
  destruct (Hholds key value) as (found & Hfound & Hvalue).
  - by eapply lookup_weaken.
  - exists found. split; [by eapply lookup_weaken|done].
Qed.

Lemma matches_metadata_monotone_witness :
  _matches_metadata {["env" := Some "prod"]}
                    {["env" := "prod"; "tier" := "web"]} = true.
Proof.
  apply (matches_metadata_monotone
           {["env" := Some "prod"; "tier" := None]} _
           {["env" := "prod"; "tier" := "web"]}).
  - apply map_subseteq_spec. intros key value.
    intros [<- <-]%lookup_singleton_Some. reflexivity.
  - done.
  - by vm_compute.
Defined.

(** ** Extra fields *)

(** X15: the extra fields of a resource registry are the fields of its
    handlers, the empty path never among them. *)
Theorem extra_fields_are_the_fields (self : list ResourceHandler)
    (f : FieldPath) :
  f ∈ ResourceRegistry.get_extra_fields self ↔
  f ≠ [] ∧ ∃ h, h ∈ self ∧ field h = Some f.
Proof.
  unfold ResourceRegistry.get_extra_fields,
    ResourceRegistry.iter_extra_fields.
  rewrite elem_of_list_to_set, list_elem_of_omap. split.
  - intros (h & Hin & Hf). destruct (field h) as [[|x path]|] eqn:Hfield;
      simpl in Hf; try done.
    injection Hf as <-. split; [done|]. by exists h.
  - intros (Hne & h & Hin & Hfield). exists h. split; [done|].
    rewrite Hfield. by destruct f.
Qed.

(** ** More on the operator registry *)

Lemma guarded_getitem_default {A} (f : family) (resource : Resource)
    (k : list ResourceHandler → Op A) (otherwise : A)
    (self : OperatorRegistry) :
  k [] self = (Ok otherwise, self) →
  (present ← Op.contains f resource;
   if present : bool
   then registry ← Op.getitem f resource; k registry
   else Op.ret otherwise) self =
  k (registry_of f resource self) self.
Proof.
  intros Hempty. rewrite guarded_getitem. unfold registry_of.
  by destruct (family_map f self !! resource).
Qed.

(** X16: every query of the operator registry gives what the registry of
    the resource gives, with no handlers for a resource that is not a key,
    and leaves the operator registry as it was, also when a callback
    raises. *)
Theorem operator_queries_pass_through (self : OperatorRegistry) :
  (∀ cause,
     OperatorRegistry.iter_resource_watching_handlers cause self
     = (ResourceWatchingRegistry.iter_handlers
          (registry_of WatchingFamily (w_resource cause) self) cause, self)
     ∧ OperatorRegistry.get_resource_watching_handlers cause self
       = (ResourceWatchingRegistry.get_handlers
            (registry_of WatchingFamily (w_resource cause) self) cause, self))
  ∧ (∀ cause,
       OperatorRegistry.iter_resource_changing_handlers cause self
       = (ResourceChangingRegistry.iter_handlers
            (registry_of ChangingFamily (c_resource cause) self) cause, self)
       ∧ OperatorRegistry.get_resource_changing_handlers cause self
         = (ResourceChangingRegistry.get_handlers
              (registry_of ChangingFamily (c_resource cause) self) cause,
            self))
  ∧ (∀ act,
       OperatorRegistry.get_activity_handlers act self
       = (Ok (ActivityRegistry.get_handlers (_activity_handlers self) act),
          self))
  ∧ (∀ f resource,
       OperatorRegistry.has_handlers f resource self
       = (Ok (negb (bool_decide (registry_of f resource self = []))), self))
  ∧ (∀ resource,
       OperatorRegistry.get_extra_fields resource self
       = (Ok (ResourceRegistry.get_extra_fields
                (registry_of ChangingFamily resource self)), self))
  ∧ (∀ resource cause,
       OperatorRegistry.requires_finalizer resource cause self
       = (ResourceRegistry.requires_finalizer
            (registry_of ChangingFamily resource self) cause, self)).
Proof.
  split_and!.
  - intros cause.
    assert (Hiter : OperatorRegistry.iter_resource_watching_handlers cause self
              = (ResourceWatchingRegistry.iter_handlers
                   (registry_of WatchingFamily (w_resource cause) self) cause,
                 self)).
    { unfold OperatorRegistry.iter_resource_watching_handlers.
      by rewrite guarded_getitem_default. }
    split; [done|].
    unfold OperatorRegistry.get_resource_watching_handlers,
      ResourceWatchingRegistry.get_handlers.
    unfold mbind, Op_bind, Op.bind. rewrite Hiter.
    by destruct (ResourceWatchingRegistry.iter_handlers _ cause).
  - intros cause.
    assert (Hiter : OperatorRegistry.iter_resource_changing_handlers cause self
              = (ResourceChangingRegistry.iter_handlers
                   (registry_of ChangingFamily (c_resource cause) self) cause,
                 self)).
    { unfold OperatorRegistry.iter_resource_changing_handlers.
      by rewrite guarded_getitem_default. }
    split; [done|].
    unfold OperatorRegistry.get_resource_changing_handlers,
      ResourceChangingRegistry.get_handlers.
    unfold mbind, Op_bind, Op.bind. rewrite Hiter.
    by destruct (ResourceChangingRegistry.iter_handlers _ cause).
  - done.
  - intros f resource. unfold OperatorRegistry.has_handlers.
    by rewrite guarded_getitem_default.
  - intros resource.
    unfold OperatorRegistry.get_extra_fields,
      OperatorRegistry.iter_extra_fields, ResourceRegistry.get_extra_fields.
    unfold mbind at 1, Op_bind at 1, Op.bind at 1.
    by rewrite guarded_getitem_default.
  - intros resource cause. unfold OperatorRegistry.requires_finalizer.
    by rewrite guarded_getitem_default.
Qed.

Lemma resource_register_shape {FieldSpec : Type}
    (Reason_of_event : string → result Reason)
    (parse_field : option FieldSpec → FieldPath)
    (self self' : list ResourceHandler) (fn : callable) (id : option string)
    (rsn : option Reason) (ev : option string) (fld : option FieldSpec)
    (settings : Settings) (ini del : option bool) (fin : bool)
    (lab ann : option (gmap string (option string)))
    (wh : option WhenHandlerFn) :
  ResourceRegistry.register Reason_of_event parse_field self fn id rsn ev fld
    settings ini del fin lab ann wh = Ok self' →
  ∃ h, self' = self ++ [h] ∧ r_fn h = fn.
Proof.
  unfold ResourceRegistry.register, append.
  destruct (match rsn, ev with
            | None, Some name => Some <$> Reason_of_event name
            | _, _ => Ok rsn
            end) as [r|e]; simpl; [|done].
  destruct (generate_id fn id None _) as [real_id|e]; simpl; [|done].
  destruct (handler_settings settings) as [stored|e]; simpl; [|done].
  intros [= <-]. by eexists.
Qed.

Section OperatorRegistration.
Context {FieldSpec : Type}.
Variable Reason_of_event : string → result Reason.
Variable parse_field : option FieldSpec → FieldPath.

Lemma register_changing_run (self : OperatorRegistry)
    (group version plural : string) (fn : callable) (id : option string)
    (rsn : option Reason) (ev : option string) (fld : option FieldSpec)
    (settings : Settings) (ini del : option bool) (fin : bool)
    (lab ann : option (gmap string (option string)))
    (wh : option WhenHandlerFn) :
  let resource : Resource := (group, version, plural) in
  let before := registry_of ChangingFamily resource self in
  OperatorRegistry.register_resource_changing_handler Reason_of_event
    parse_field group version plural fn id rsn ev fld settings ini del fin
    lab ann wh self
  = match ResourceRegistry.register Reason_of_event parse_field before
            fn id rsn ev fld settings ini del fin lab ann wh with
    | Ok after =>
        (Ok (), mkOperatorRegistry (_activity_handlers self)
                  (_resource_watching_handlers self)
                  (<[resource := after]> (_resource_changing_handlers self)))
    | Raise e =>
        (Raise e, mkOperatorRegistry (_activity_handlers self)
                    (_resource_watching_handlers self)
                    (<[resource := before]>
                       (_resource_changing_handlers self)))
    end.
Proof.
  intros resource before.
  unfold OperatorRegistry.register_resource_changing_handler.
  unfold mbind, Op_bind, Op.bind, Op.getitem, Op.lift, Op.update.
  subst before. unfold registry_of. cbn [family_map set_family_map].
  fold resource.
  destruct (_resource_changing_handlers self !! resource)
    as [registry|] eqn:Hreg; cbn [default from_option Datatypes.id].
  - destruct (ResourceRegistry.register _ _ registry _ _ _ _ _ _ _ _ _ _ _ _)
      as [after|e]; cbn; [done|].
    rewrite insert_id by done. by destruct self.
  - destruct (ResourceRegistry.register _ _ [] _ _ _ _ _ _ _ _ _ _ _ _)
      as [after|e]; cbn; [|done].
    by rewrite insert_insert_eq.
Qed.
End OperatorRegistration.

Section OperatorRegistrationOutcome.
Context {FieldSpec : Type}.
Variable Reason_of_event : string → result Reason.
Variable parse_field : option FieldSpec → FieldPath.

(** X17: after a successful registration of a resource-changing handler
    in the operator registry, the handlers of the resource are those of
    before and one more, with the function given; the resource has
    handlers and is among the resources of the registry; the handlers of
    the other resources, the watching handlers and the activity handlers
    are as before. *)
Theorem operator_registration_is_visible (self self' : OperatorRegistry)
    (group version plural : string) (fn : callable) (id : option string)
    (rsn : option Reason) (ev : option string) (fld : option FieldSpec)
    (settings : Settings) (ini del : option bool) (fin : bool)
    (lab ann : option (gmap string (option string)))
    (wh : option WhenHandlerFn) :
  OperatorRegistry.register_resource_changing_handler Reason_of_event
    parse_field group version plural fn id rsn ev fld settings ini del fin
    lab ann wh self = (Ok (), self') →
  let resource : Resource := (group, version, plural) in
  (∃ h, registry_of ChangingFamily resource self'
        = registry_of ChangingFamily resource self ++ [h]
        ∧ r_fn h = fn)
  ∧ OperatorRegistry.has_resource_changing_handlers resource
      self' = (Ok true, self')
  ∧ resource ∈ OperatorRegistry.resources self'
  ∧ (∀ other, other ≠ resource →
       _resource_changing_handlers self' !! other
       = _resource_changing_handlers self !! other)
  ∧ _resource_watching_handlers self' = _resource_watching_handlers self
  ∧ _activity_handlers self' = _activity_handlers self.
Proof.
  intros Hrun resource. rewrite register_changing_run in Hrun.
  fold resource in Hrun.
  destruct (ResourceRegistry.register _ _ _ _ _ _ _ _ _ _ _ _ _ _ _)
    as [after|e] eqn:Hregister; [|done].
  injection Hrun as <-.
  apply resource_register_shape in Hregister as (h & Hafter & Hfn).
  assert (Hnow : registry_of ChangingFamily resource
            (mkOperatorRegistry (_activity_handlers self)
               (_resource_watching_handlers self)
               (<[resource := after]>
                  (_resource_changing_handlers self))) = after).
  { unfold registry_of. cbn [family_map _resource_changing_handlers].
    by rewrite lookup_insert_eq. }
  split_and!; try done.
  - exists h. by rewrite Hnow.
  - unfold OperatorRegistry.has_resource_changing_handlers,
      OperatorRegistry.has_handlers.
    rewrite guarded_getitem_default by done. rewrite Hnow, Hafter.
    by destruct (registry_of _ _ self).
  - unfold OperatorRegistry.resources. apply elem_of_union_r, elem_of_dom.
    cbn. rewrite lookup_insert_eq. by eexists.
  - intros other Hother. cbn. by rewrite lookup_insert_ne.
Qed.

(** X18: a registration in the operator registry that raises adds no
    handler, but the resource is a key of the map afterwards, with the
    handlers it had, or none: it is then among the resources of the
    registry.  Nothing else changes. *)
Theorem failed_operator_registration (self self' : OperatorRegistry)
    (group version plural : string) (fn : callable) (id : option string)
    (rsn : option Reason) (ev : option string) (fld : option FieldSpec)
    (settings : Settings) (ini del : option bool) (fin : bool)
    (lab ann : option (gmap string (option string)))
    (wh : option WhenHandlerFn) (e : exn) :
  OperatorRegistry.register_resource_changing_handler Reason_of_event
    parse_field group version plural fn id rsn ev fld settings ini del fin
    lab ann wh self = (Raise e, self') →
  let resource : Resource := (group, version, plural) in
  _resource_changing_handlers self' !! resource
  = Some (registry_of ChangingFamily resource self)
  ∧ resource ∈ OperatorRegistry.resources self'
  ∧ (∀ other, other ≠ resource →
       _resource_changing_handlers self' !! other
       = _resource_changing_handlers self !! other)
  ∧ _resource_watching_handlers self' = _resource_watching_handlers self
  ∧ _activity_handlers self' = _activity_handlers self.
Proof.
  intros Hrun resource. rewrite register_changing_run in Hrun.
  fold resource in Hrun.
  destruct (ResourceRegistry.register _ _ _ _ _ _ _ _ _ _ _ _ _ _ _)
    as [after|e'] eqn:Hregister; [done|].
  injection Hrun as <- <-. split_and!; try done.
  - cbn. by rewrite lookup_insert_eq.
  - unfold OperatorRegistry.resources. apply elem_of_union_r, elem_of_dom.
    cbn. rewrite lookup_insert_eq. by eexists.
  - intros other Hother. cbn. by rewrite lookup_insert_ne.
Qed.
End OperatorRegistrationOutcome.

Lemma operator_registration_is_visible_witness :
  let pods : Resource := ("", "v1", "pods") in
  let fn := Function 1 "scale" "scale" "op.py" 7 in
  let h :=
    mkResourceHandler "scale" fn (mkSettings None None None None None)
      None None None None false None None None in
  let self' := mkOperatorRegistry [] ∅ {[ pods := [h] ]} in
  OperatorRegistry.has_resource_changing_handlers pods self'
  = (Ok true, self')
  ∧ pods ∈ OperatorRegistry.resources self'.
Proof.
  intros pods fn h self'.
  destruct (operator_registration_is_visible (FieldSpec := list string)
              Ok (default []) OperatorRegistry.init self'
              "" "v1" "pods" fn None None None None
              (mkSettings None None None None None) None None false
              None None None) as (_ & Hhas & Hres & _); [reflexivity|].
  by split.
Defined.

Lemma failed_operator_registration_witness :
  let pods : Resource := ("", "v1", "pods") in
  let self' := mkOperatorRegistry [] ∅ {[ pods := [] ]} in
  pods ∈ OperatorRegistry.resources self'
  ∧ pods ∉ OperatorRegistry.resources OperatorRegistry.init.
Proof.
  intros pods self'.
  destruct (failed_operator_registration (FieldSpec := list string)
              Ok (default []) OperatorRegistry.init self'
              "" "v1" "pods" PyNone None None None None
              (mkSettings None None None None None) None None false
              None None None
              (ValueError "Cannot build a persistent id of None."))
    as (_ & Hres & _); [reflexivity|].
  split; [done|]. unfold OperatorRegistry.resources. cbn. set_solver.
Defined.

(** ** The logins of the smart operator registry *)

Section SmartRegistry.
Variable AUTHENTICATION : Activity.
Variables login_via_pykube login_via_client : callable.

Lemma login_tests (id : string) (fn : callable) (settings : Settings) :
  ActivityRegistry.regular_test AUTHENTICATION
    (mkActivityHandler id fn settings (Some AUTHENTICATION) true) = false
  ∧ ActivityRegistry.fallback_test AUTHENTICATION
      (mkActivityHandler id fn settings (Some AUTHENTICATION) true) = true
  ∧ ActivityRegistry.regular_test AUTHENTICATION
      (mkActivityHandler id fn settings (Some AUTHENTICATION) false) = true.
Proof.
  unfold ActivityRegistry.regular_test, ActivityRegistry.fallback_test.
  cbn [activity _fallback]. by repeat case_bool_decide.
Qed.

(** X19: the construction of a smart operator registry never raises,
    whatever the login functions are; it registers no resource handler
    and, for each of the two client libraries that can be imported, one
    handler of the authentication, a fallback whose errors are ignored.
    As long as the user registers no handler, these logins are what the
    authentication gets; once the user registers a handler of the
    authentication that is not a fallback, the authentication gets that
    handler alone. *)
Theorem smart_registry_logins (has_pykube has_kubernetes : bool) :
  ∃ self,
    SmartOperatorRegistry.init AUTHENTICATION login_via_pykube
      login_via_client has_pykube has_kubernetes = (Ok (), self)
    ∧ _resource_watching_handlers self = ∅
    ∧ _resource_changing_handlers self = ∅
    ∧ a_id <$> _activity_handlers self
      = (if has_pykube then ["login_via_pykube"] else [])
        ++ (if has_kubernetes then ["login_via_client"] else [])
    ∧ Forall (λ h, _fallback h = true
                   ∧ activity h = Some AUTHENTICATION
                   ∧ errors (a_settings h) = Some IGNORED)
             (_activity_handlers self)
    ∧ OperatorRegistry.iter_activity_handlers AUTHENTICATION self
      = (Ok (_activity_handlers self), self)
    ∧ ∀ fn id settings self',
        OperatorRegistry.register_activity_handler fn id settings
          (Some AUTHENTICATION) false self = (Ok (), self') →
        ∃ h, OperatorRegistry.get_activity_handlers AUTHENTICATION self'
             = (Ok [h], self')
             ∧ a_fn h = fn ∧ _fallback h = false.
Proof.
  exists (mkOperatorRegistry
            ((if has_pykube
              then [mkActivityHandler "login_via_pykube" login_via_pykube
                      (mkSettings (Some IGNORED) None None None None)
                      (Some AUTHENTICATION) true]
              else [])
             ++ (if has_kubernetes
                 then [mkActivityHandler "login_via_client" login_via_client
                         (mkSettings (Some IGNORED) None None None None)
                         (Some AUTHENTICATION) true]
                 else []))
            ∅ ∅).
  split.
  { unfold SmartOperatorRegistry.init, SmartOperatorRegistry.register_logins.
    unfold mbind, Op_bind, Op.bind.
    destruct has_pykube, has_kubernetes; reflexivity. }
  assert (Hmine : ∀ logins fn id settings self',
    Forall (λ h, ActivityRegistry.regular_test AUTHENTICATION h = false)
           logins →
    OperatorRegistry.register_activity_handler fn id settings
      (Some AUTHENTICATION) false (mkOperatorRegistry logins ∅ ∅)
    = (Ok (), self') →
    ∃ h, OperatorRegistry.get_activity_handlers AUTHENTICATION self'
         = (Ok [h], self')
         ∧ a_fn h = fn ∧ _fallback h = false).
  { intros logins fn id settings self' Hlogins.
    unfold OperatorRegistry.register_activity_handler,
      ActivityRegistry.register, append. cbn [_activity_handlers].
    destruct (generate_id fn id None None) as [real_id|e]; simpl; [|done].
    destruct (handler_settings settings) as [stored|e]; simpl; [|done].
    intros [= <-].
    exists (mkActivityHandler real_id fn stored (Some AUTHENTICATION) false).
    split; [|done].
    unfold OperatorRegistry.get_activity_handlers,
      OperatorRegistry.iter_activity_handlers.
    unfold mbind, Op_bind, Op.bind. cbn [_activity_handlers].
    rewrite activity_iter_handlers_filter, List.filter_app.
    assert (Hnone : List.filter
              (ActivityRegistry.regular_test AUTHENTICATION) logins = []).
    { apply filter_bool_nil. intros h Hin.
      by apply (proj1 (Forall_forall _ _) Hlogins). }
    rewrite Hnone. cbn [List.filter app].
    destruct (login_tests real_id fn stored) as (_ & _ & ->).
    reflexivity. }
  destruct has_pykube, has_kubernetes; cbn;
    destruct (login_tests "login_via_pykube" login_via_pykube
                (mkSettings (Some IGNORED) None None None None))
      as (Hp1 & Hp2 & _);
    destruct (login_tests "login_via_client" login_via_client
                (mkSettings (Some IGNORED) None None None None))
      as (Hc1 & Hc2 & _);
    (split_and!; [done|done|done|repeat constructor| |]).
  all: try (intros fn id settings self'; apply Hmine; by repeat constructor).
  all: unfold OperatorRegistry.iter_activity_handlers; cbn [_activity_handlers];
    rewrite activity_iter_handlers_filter; cbn [List.filter];
    rewrite ?Hp1, ?Hc1; cbn [List.filter]; rewrite ?Hp2, ?Hc2; reflexivity.
Qed.
End SmartRegistry.
